(** * Bar-chart report scripts: embedding and verification

    The repository holds two stand-alone Python scripts,
    [scripts/generate_charts.py] (lab 3: LSM against PostgreSQL) and
    [scripts/generate_compression_charts.py] (lab 4: LZ77, GZIP, ZSTD).
    Each one declares literal arrays, draws three bar charts with
    matplotlib and saves them as PNG files.

    The scripts are embedded shallowly:
    - Python floats are IEEE binary64 values ([spec_float] with precision 53),
      literals are rounded to nearest-even as the Python parser does, and
      arithmetic rounds after every operation;
    - format specifications [.1f] / [.2f] are the correctly rounded
      fixed-point conversion of the exact binary value;
    - the interpreter state that the scripts touch (rcParams, the pyplot
      figure registry, the file system, standard output) is an explicit
      [world] threaded through an exception monad;
    - a matplotlib call is what it stores in the figure: [Axes.bar] keeps
      the rectangles it computes, after its own conversion of the width
      and the heights, and raises on a shape mismatch; laying out and
      drawing a figure is taken to succeed;
    - strings are byte strings holding the UTF-8 encoding of the source text. *)

From Stdlib Require Import ZArith QArith Qabs Ascii String DecimalString.
From Stdlib Require Import Floats.SpecFloat.
From stdpp Require Import base option list strings gmap.

Local Open Scope Z_scope.

(** ** IEEE binary64 arithmetic (Python [float], numpy [float64]) *)

Module Float64.

Definition prec : Z := 53.
Definition emax : Z := 1024.

Definition float := spec_float.

(** Conversion of a Python [int] (exact below [2^53]). *)
Definition of_Z (z : Z) : float := binary_normalize prec emax z 0 false.

Definition add : float -> float -> float := SFadd prec emax.
Definition sub : float -> float -> float := SFsub prec emax.
Definition div : float -> float -> float := SFdiv prec emax.

Definition eqb : float -> float -> bool := SFeqb.
Definition ltb : float -> float -> bool := SFltb.

(** The decimal literal [n / 10^k], for instance [lit 26549 2] for
    [265.49].  Both operands are exact in binary64 and IEEE division is
    correctly rounded, so the quotient is the double nearest to the
    decimal, which is what the Python parser produces. *)
Definition lit (n : Z) (k : Z) : float := div (of_Z n) (of_Z (10 ^ k)).

Definition zero : float := S754_zero false.

(** [math.isfinite] *)
Definition is_finite (v : float) : bool :=
  match v with
  | S754_zero _ | S754_finite _ _ _ => true
  | S754_infinity _ | S754_nan => false
  end.

(** The exact value of a finite float, as a rational. *)
Definition to_Q (v : float) : option Q :=
  match v with
  | S754_zero _ => Some 0%Q
  | S754_finite s m e =>
      let n := if s then Z.neg m else Z.pos m in
      Some (if 0 <=? e then inject_Z (n * 2 ^ e)
            else Qmake n (Z.to_pos (2 ^ (- e))))
  | S754_infinity _ | S754_nan => None
  end.

(** *** Fixed-point formatting: [format(v, '.<p>f')] *)

(** Nearest integer to [num / den] ([den > 0]), ties to even. *)
Definition round_half_even (num den : Z) : Z :=
  let q := num / den in
  let r := num mod den in
  match (2 * r ?= den) with
  | Lt => q
  | Gt => q + 1
  | Eq => if Z.even q then q else q + 1
  end.

(** [round (m * 2^e * 10^p)], the digits of the correctly rounded
    conversion of the exact value [m * 2^e]. *)
Definition scaled_digits (p : nat) (m : positive) (e : Z) : Z :=
  let t := 10 ^ Z.of_nat p in
  if 0 <=? e then Z.pos m * 2 ^ e * t
  else round_half_even (Z.pos m * t) (2 ^ (- e)).

Definition string_of_N (n : N) : string :=
  NilZero.string_of_uint (N.to_uint n).

Fixpoint zeros (n : nat) : string :=
  match n with
  | O => EmptyString
  | S n' => String "0" (zeros n')
  end.

(** [n] written with at least [p] digits, zero-padded on the left. *)
Definition pad_left (p : nat) (n : N) : string :=
  let s := string_of_N n in
  (zeros (p - String.length s) +:+ s)%string.

Definition fixed_unsigned (p : nat) (d : Z) : string :=
  let t := 10 ^ Z.of_nat p in
  let ip := string_of_N (Z.to_N (d / t)) in
  match p with
  | O => ip
  | S _ => (ip +:+ "." +:+ pad_left p (Z.to_N (d mod t)))%string
  end.

Definition sign_prefix (s : bool) : string :=
  if s then "-"%string else EmptyString.

Definition format_fixed (p : nat) (v : float) : string :=
  match v with
  | S754_nan => "nan"%string
  | S754_infinity s => (sign_prefix s +:+ "inf")%string
  | S754_zero s => (sign_prefix s +:+ fixed_unsigned p 0)%string
  | S754_finite s m e =>
      (sign_prefix s +:+ fixed_unsigned p (scaled_digits p m e))%string
  end.

End Float64.

(** ** Python run-time pieces the scripts rely on *)

Module Py.

(** Exceptions that can escape from the library calls the scripts make.
    The scripts contain no [raise] and define no exception class. *)
Inductive exception :=
| ValueError (msg : string)
| FileNotFoundError (path : string)
| PermissionError (path : string).


(** [isinstance(e, OSError)]; in Python 3 [IOError] is an alias of
    [OSError]. *)
Definition is_OSError (e : exception) : bool :=
  match e with
  | FileNotFoundError _ | PermissionError _ => true
  | ValueError _ => false
  end.

Inductive result (A : Type) :=
| Ok (a : A)
| Raise (e : exception).
Arguments Ok {A} a.
Arguments Raise {A} e.

Definition nl : string := String (ascii_of_nat 10) EmptyString.

(** [zip(a, b)]: stops at the shorter argument. *)
Fixpoint zip {A B} (a : list A) (b : list B) : list (A * B) :=
  match a, b with
  | x :: a', y :: b' => (x, y) :: zip a' b'
  | _, _ => []
  end.

(** [os.path.dirname]: everything before the last slash. *)
Fixpoint dirname (p : string) : string :=
  match p with
  | EmptyString => EmptyString
  | String c r =>
      if bool_decide ("/"%char ∈ list_ascii_of_string r)
      then String c (dirname r)
      else EmptyString
  end.

(** [os.path.basename]: everything after the last slash. *)
Fixpoint basename (p : string) : string :=
  match p with
  | EmptyString => EmptyString
  | String c r =>
      if bool_decide ("/"%char ∈ list_ascii_of_string r) then basename r
      else if Ascii.eqb c "/" then r else p
  end.

Fixpoint after_last_dot (p : string) : string :=
  match p with
  | EmptyString => EmptyString
  | String c r =>
      if bool_decide ("."%char ∈ list_ascii_of_string r)
      then after_last_dot r
      else if Ascii.eqb c "." then r else EmptyString
  end.

(** [os.path.splitext(p)[1][1:]]: the extension of the file name,
    without its dot. *)
Definition extension (p : string) : string := after_last_dot (basename p).

End Py.

(** ** numpy: the array operations of the scripts *)

Module Np.
Import Float64.

(** [np.arange(n)]: the integers [0 .. n-1]. *)
Definition arange (n : nat) : list Z := seqZ 0 (Z.of_nat n).

(** Integer array to [float64] (what every mixed operation does first). *)
Definition astype_float (x : list Z) : list float := map of_Z x.

(** [x - s] and [x + s] for an integer array [x] and a float scalar [s]. *)
Definition sub_scalar (x : list Z) (s : float) : list float :=
  map (fun xi => sub xi s) (astype_float x).
Definition add_scalar (x : list Z) (s : float) : list float :=
  map (fun xi => add xi s) (astype_float x).

(** [np.broadcast_arrays] on two one-dimensional arrays: equal lengths
    pair up, a length-one array is repeated, anything else is a shape
    mismatch. *)
Definition broadcast {A B} (a : list A) (b : list B) : option (list (A * B)) :=
  if bool_decide (length a = length b) then Some (Py.zip a b)
  else match a, b with
       | [x], _ => Some (map (fun y => (x, y)) b)
       | _, [y] => Some (map (fun x => (x, y)) a)
       | _, _ => None
       end.

End Np.

(** ** matplotlib: figures, axes, pyplot state *)

Module Mpl.
Import Float64 Py.

Record rcparams := { font_family : string; font_size : Z }.

(** A [Rectangle] patch: lower-left corner, extent, face colour. *)
Record rectangle := {
  rect_x : float;
  rect_y : float;
  rect_width : float;
  rect_height : float;
  rect_color : option string
}.

Definition get_x (r : rectangle) : float := rect_x r.
Definition get_width (r : rectangle) : float := rect_width r.
Definition get_height (r : rectangle) : float := rect_height r.
(** Right edge, [x0 + width]. *)

(** What [Axes.bar] returns and keeps: the patches and the legend label. *)
Record bar_container := {
  bc_label : option string;
  bc_patches : list rectangle
}.

Record text := {
  text_x : float;
  text_y : float;
  text_s : string;
  text_ha : string;
  text_va : string;
  text_fontsize : Z;
  text_fontweight : option string
}.

Record label := {
  label_s : string;
  label_fontsize : Z;
  label_fontweight : option string
}.

Inductive scale := Linear | Log.

Record axes := {
  containers : list bar_container;
  texts : list text;
  xlabel : option label;
  ylabel : option label;
  title : option label;
  xticks : option (list float);
  xticklabels : option (list string);
  legend : option (list string);
  grid : option (string * float);
  yscale : scale
}.

Definition empty_axes : axes :=
  {| containers := []; texts := []; xlabel := None; ylabel := None;
     title := None; xticks := None; xticklabels := None; legend := None;
     grid := None; yscale := Linear |}.

Record figure := {
  figsize : Z * Z;
  fig_rc : rcparams;
  fig_axes : axes;
  fig_tight_layout : bool
}.

Inductive image_format := PNG | PDF | SVG | JPEG.

Inductive bbox := BboxFigure | BboxTight.

(** The file [savefig] writes. *)
Record image := {
  img_format : image_format;
  img_dpi : Z;
  img_bbox : bbox;
  img_figure : figure
}.

(** The part of the process and its environment the scripts act on.
    [figs] is pyplot's registry of open figures, the current one first;
    [dirs] maps each existing directory to whether files can be created
    and replaced in it (environments where this differs from file to
    file, such as a read-only file in a writable directory, are not
    represented);
    [stdout] holds the argument of every [print] call, oldest first, each
    call writing its argument and a newline (standard output is taken to
    accept any text). *)
Record world := {
  rc : rcparams;
  figs : list (nat * figure);
  dirs : gmap string bool;
  files : gmap string image;
  stdout : list string
}.

Definition M (A : Type) : Type := world -> result A * world.

Definition ret {A} (a : A) : M A := fun w => (Ok a, w).
Definition raise {A} (e : exception) : M A := fun w => (Raise e, w).
Definition bind {A B} (m : M A) (k : A -> M B) : M B :=
  fun w => match m w with
           | (Ok a, w') => k a w'
           | (Raise e, w') => (Raise e, w')
           end.

Declare Scope py_scope.
Delimit Scope py_scope with py.
Notation "x <- m ;; k" := (bind m (fun x => k))
  (at level 100, m at next level, right associativity) : py_scope.
Notation "m ;; k" := (bind m (fun _ => k))
  (at level 100, right associativity) : py_scope.
Local Open Scope py_scope.

(** A [for] loop whose body is run for its effects. *)
Fixpoint for_each {A} (l : list A) (body : A -> M unit) : M unit :=
  match l with
  | [] => ret tt
  | a :: l' => body a ;; for_each l' body
  end.

Definition set_rc (f : rcparams -> rcparams) : M unit :=
  fun w => (Ok tt, {| rc := f (rc w); figs := figs w; dirs := dirs w;
                      files := files w; stdout := stdout w |}).

Definition set_figs (f : list (nat * figure) -> list (nat * figure)) : M unit :=
  fun w => (Ok tt, {| rc := rc w; figs := f (figs w); dirs := dirs w;
                      files := files w; stdout := stdout w |}).

(** [print(s)] *)
Definition print (s : string) : M unit :=
  fun w => (Ok tt, {| rc := rc w; figs := figs w; dirs := dirs w;
                      files := files w; stdout := stdout w ++ [s] |}).

(** [plt.rcParams['font.family'] = v] and [plt.rcParams['font.size'] = v] *)
Definition set_font_family (v : string) : M unit :=
  set_rc (fun r => {| font_family := v; font_size := font_size r |}).
Definition set_font_size (v : Z) : M unit :=
  set_rc (fun r => {| font_family := font_family r; font_size := v |}).

(** The number pyplot gives a new figure: one more than the largest
    number in use. *)
Definition next_num (fs : list (nat * figure)) : nat :=
  S (foldr (fun nf m => Nat.max (fst nf) m) O fs).

Definition new_figure (size : Z * Z) : M nat :=
  fun w =>
    let n := next_num (figs w) in
    let f := {| figsize := size; fig_rc := rc w; fig_axes := empty_axes;
                fig_tight_layout := false |} in
    (Ok n, {| rc := rc w; figs := (n, f) :: figs w; dirs := dirs w;
              files := files w; stdout := stdout w |}).

(** [fig, ax = plt.subplots(figsize=size)]: a new current figure with
    one axes.  The result is the handle through which the script reaches
    that axes object. *)
Definition subplots (size : Z * Z) : M nat := new_figure size.

(** pyplot's default [figure.figsize], in inches. *)
Definition default_figsize : Z * Z := (6, 4).

(** [plt.gcf()]: the current figure, created when there is none. *)
Definition gcf : M nat :=
  fun w => match figs w with
           | (n, _) :: _ => (Ok n, w)
           | [] => new_figure default_figsize w
           end.

Fixpoint update_fig (h : nat) (g : figure -> figure)
    (fs : list (nat * figure)) : list (nat * figure) :=
  match fs with
  | [] => []
  | (n, f) :: fs' =>
      if Nat.eqb n h then (n, g f) :: fs' else (n, f) :: update_fig h g fs'
  end.

Definition map_axes (g : axes -> axes) (f : figure) : figure :=
  {| figsize := figsize f; fig_rc := fig_rc f; fig_axes := g (fig_axes f);
     fig_tight_layout := fig_tight_layout f |}.

(** A mutation of the axes object behind handle [h]. *)
Definition ax_update (h : nat) (g : axes -> axes) : M unit :=
  set_figs (update_fig h (map_axes g)).

(** The field updates behind the [Axes] methods. *)
Definition add_container (c : bar_container) (a : axes) : axes :=
  {| containers := containers a ++ [c]; texts := texts a;
     xlabel := xlabel a; ylabel := ylabel a; title := title a;
     xticks := xticks a; xticklabels := xticklabels a;
     legend := legend a; grid := grid a; yscale := yscale a |}.

Definition add_texts (ts : list text) (a : axes) : axes :=
  {| containers := containers a; texts := texts a ++ ts;
     xlabel := xlabel a; ylabel := ylabel a; title := title a;
     xticks := xticks a; xticklabels := xticklabels a;
     legend := legend a; grid := grid a; yscale := yscale a |}.

Definition with_xlabel (l : label) (a : axes) : axes :=
  {| containers := containers a; texts := texts a;
     xlabel := Some l; ylabel := ylabel a; title := title a;
     xticks := xticks a; xticklabels := xticklabels a;
     legend := legend a; grid := grid a; yscale := yscale a |}.

Definition with_ylabel (l : label) (a : axes) : axes :=
  {| containers := containers a; texts := texts a;
     xlabel := xlabel a; ylabel := Some l; title := title a;
     xticks := xticks a; xticklabels := xticklabels a;
     legend := legend a; grid := grid a; yscale := yscale a |}.

Definition with_title (l : label) (a : axes) : axes :=
  {| containers := containers a; texts := texts a;
     xlabel := xlabel a; ylabel := ylabel a; title := Some l;
     xticks := xticks a; xticklabels := xticklabels a;
     legend := legend a; grid := grid a; yscale := yscale a |}.

Definition with_xticks (t : list float) (a : axes) : axes :=
  {| containers := containers a; texts := texts a;
     xlabel := xlabel a; ylabel := ylabel a; title := title a;
     xticks := Some t; xticklabels := xticklabels a;
     legend := legend a; grid := grid a; yscale := yscale a |}.

Definition with_xticklabels (l : list string) (a : axes) : axes :=
  {| containers := containers a; texts := texts a;
     xlabel := xlabel a; ylabel := ylabel a; title := title a;
     xticks := xticks a; xticklabels := Some l;
     legend := legend a; grid := grid a; yscale := yscale a |}.

(** One legend entry per labelled container drawn so far. *)
Definition with_legend (a : axes) : axes :=
  {| containers := containers a; texts := texts a;
     xlabel := xlabel a; ylabel := ylabel a; title := title a;
     xticks := xticks a; xticklabels := xticklabels a;
     legend := Some (omap bc_label (containers a));
     grid := grid a; yscale := yscale a |}.

Definition with_grid (axis : string) (alpha : float) (a : axes) : axes :=
  {| containers := containers a; texts := texts a;
     xlabel := xlabel a; ylabel := ylabel a; title := title a;
     xticks := xticks a; xticklabels := xticklabels a;
     legend := legend a; grid := Some (axis, alpha); yscale := yscale a |}.

Definition with_yscale (s : scale) (a : axes) : axes :=
  {| containers := containers a; texts := texts a;
     xlabel := xlabel a; ylabel := ylabel a; title := title a;
     xticks := xticks a; xticklabels := xticklabels a;
     legend := legend a; grid := grid a; yscale := s |}.

(** Colours given to [bar] are used cyclically. *)
Definition cycle_color (colors : list string) (i : nat) : option string :=
  match colors with
  | [] => None
  | _ => colors !! (i mod length colors)%nat
  end.

(** The rectangle [Axes.bar] makes from a position and a height, both
    already converted ([xh]), and the converted [width]. *)
Definition bar_patch (width : float) (colors : list string) (i : nat)
    (xh : float * float) : rectangle :=
  {| rect_x := sub (fst xh) (div width (of_Z 2));
     rect_y := zero;
     rect_width := width;
     rect_height := snd xh;
     rect_color := cycle_color colors i |}.

Definition bar_patches (width : float) (colors : list string)
    (xhs : list (float * float)) : list rectangle :=
  imap (bar_patch width colors) xhs.

Definition shape_mismatch : string :=
  "shape mismatch: objects cannot be broadcast to a single shape".

(** [cbook._safe_first_finite]: the first finite entry, the first entry
    when none is finite. *)
Definition safe_first_finite (x : list float) : option float :=
  match List.filter is_finite x with
  | y :: _ => Some y
  | [] => head x
  end.

(** [Axes._convert_dx] as [Axes.bar] applies it to a scalar [width] over
    numeric positions: the width becomes [(x0 + width) - x0] for the
    first finite position [x0], and is kept when there is no position. *)
Definition convert_width (x : list float) (width : float) : float :=
  match safe_first_finite x with
  | Some x0 => sub (add x0 width) x0
  | None => width
  end.

(** The same for the heights, over the default [bottom=0]: each height
    [h] becomes [(0 + h) - 0], which is [h] except that a negative zero
    comes out as a positive one. *)
Definition convert_height (h : float) : float :=
  sub (add (of_Z 0) h) (of_Z 0).

(** What [Axes.bar] does once positions and width are numbers, with the
    default [align='center'], [bottom=0]: the heights are converted,
    positions and heights are broadcast against each other (ValueError
    on a shape mismatch), and bar [i] gets the left edge
    [x_i - width/2], the width [width] and the converted height. *)
Definition draw_bars (h : nat) (x height : list float) (width : float)
    (lbl : option string) (colors : list string) : M bar_container :=
  match Np.broadcast x (map convert_height height) with
  | None => raise (ValueError shape_mismatch)
  | Some xhs =>
      let c := {| bc_label := lbl;
                  bc_patches := bar_patches width colors xhs |} in
      ax_update h (add_container c) ;;
      ret c
  end.

(** [ax.bar(x, height, width, label=lbl, color=colors)] on numeric
    positions. *)
Definition bar (h : nat) (x height : list float) (width : float)
    (lbl : option string) (colors : list string) : M bar_container :=
  draw_bars h x height (convert_width x width) lbl colors.

(** matplotlib's default bar width ([width=0.8]). *)
Definition default_bar_width : float := lit 8 1.

(** String categories on the x axis: every distinct label gets the next
    integer position, in order of first appearance. *)
Fixpoint update_units (seen labels : list string) : list string :=
  match labels with
  | [] => seen
  | s :: r =>
      if bool_decide (s ∈ seen) then update_units seen r
      else update_units (seen ++ [s]) r
  end.

Definition category_position (units : list string) (s : string) : Z :=
  match list_find (fun u => u = s) units with
  | Some (i, _) => Z.of_nat i
  | None => 0
  end.

Definition convert_units (labels : list string) : list Z :=
  map (category_position (update_units [] labels)) labels.

(** An axis that has been given string data shows one tick per distinct
    label, at its position.  An empty list holds no string: the axis
    then gets no category converter and keeps its numeric default
    ticks. *)
Definition category_axis (units : list string) (a : axes) : axes :=
  match units with
  | [] => a
  | _ :: _ =>
      with_xticklabels units
        (with_xticks (Np.astype_float (Np.arange (length units))) a)
  end.

(** [ax.bar(labels, height, color=colors)] with a list of strings as
    positions: the axis units are updated first, the labels become their
    positions, and the width stays the default one (adding it to a
    string fails, so [_convert_dx] keeps it as given). *)
Definition bar_categorical (h : nat) (labels : list string)
    (height : list float) (colors : list string) : M bar_container :=
  ax_update h (category_axis (update_units [] labels)) ;;
  draw_bars h (Np.astype_float (convert_units labels)) height
    default_bar_width None colors.

(** [ax.text(x, y, s, ha=.., va=.., fontsize=.., fontweight=..)] *)
Definition ax_text (h : nat) (x y : float) (s ha va : string) (fontsize : Z)
    (fontweight : option string) : M unit :=
  ax_update h (add_texts
    [{| text_x := x; text_y := y; text_s := s; text_ha := ha; text_va := va;
        text_fontsize := fontsize; text_fontweight := fontweight |}]).

Definition set_xlabel (h : nat) (s : string) (fontsize : Z) : M unit :=
  ax_update h (with_xlabel {| label_s := s; label_fontsize := fontsize;
                              label_fontweight := None |}).

Definition set_ylabel (h : nat) (s : string) (fontsize : Z) : M unit :=
  ax_update h (with_ylabel {| label_s := s; label_fontsize := fontsize;
                              label_fontweight := None |}).

Definition set_title (h : nat) (s : string) (fontsize : Z)
    (fontweight : string) : M unit :=
  ax_update h (with_title {| label_s := s; label_fontsize := fontsize;
                             label_fontweight := Some fontweight |}).

Definition set_xticks (h : nat) (x : list Z) : M unit :=
  ax_update h (with_xticks (Np.astype_float x)).

Definition set_xticklabels (h : nat) (labels : list string) : M unit :=
  ax_update h (with_xticklabels labels).

(** [ax.legend()] *)
Definition ax_legend (h : nat) : M unit := ax_update h with_legend.

(** [ax.grid(axis=.., alpha=..)] *)
Definition ax_grid (h : nat) (axis : string) (alpha : float) : M unit :=
  ax_update h (with_grid axis alpha).

Definition set_yscale (h : nat) (s : scale) : M unit :=
  ax_update h (with_yscale s).

Definition with_tight_layout (f : figure) : figure :=
  {| figsize := figsize f; fig_rc := fig_rc f; fig_axes := fig_axes f;
     fig_tight_layout := true |}.

(** [plt.tight_layout()] acts on the current figure.  Computing the
    layout, like drawing the figure in [savefig] below, is taken to
    succeed: the exceptions of the renderer itself (a label that is not
    valid mathtext, axis limits that overflow) are outside this model. *)
Definition tight_layout : M unit :=
  n <- gcf ;;
  set_figs (update_fig n with_tight_layout).

Definition format_of_extension (e : string) : option image_format :=
  if String.eqb e "png" then Some PNG
  else if String.eqb e "pdf" then Some PDF
  else if String.eqb e "svg" then Some SVG
  else if String.eqb e "jpg" || String.eqb e "jpeg" then Some JPEG
  else None.

Definition write_file (path : string) (i : image) : M unit :=
  fun w =>
    match dirs w !! dirname path with
    | None => (Raise (FileNotFoundError path), w)
    | Some false => (Raise (PermissionError path), w)
    | Some true =>
        (Ok tt, {| rc := rc w; figs := figs w; dirs := dirs w;
                   files := <[path := i]> (files w); stdout := stdout w |})
    end.

(** [plt.savefig(path, dpi=.., bbox_inches=..)]: renders the current
    figure in the format named by the extension and writes it to [path].
    The file is created in the parent directory of [path]: a missing
    directory gives FileNotFoundError, one that cannot be written to gives
    PermissionError; nothing is written in either case. *)
Definition savefig (path : string) (dpi : Z) (bbox_inches : bbox) : M unit :=
  _ <- gcf ;;
  fun w =>
    match figs w with
    | [] => (Ok tt, w)
    | (_, f) :: _ =>
        match format_of_extension (extension path) with
        | None =>
            (Raise (ValueError ("Format '" +:+ extension path +:+
                                "' is not supported")), w)
        | Some fmt =>
            write_file path {| img_format := fmt; img_dpi := dpi;
                               img_bbox := bbox_inches; img_figure := f |} w
        end
    end.

(** [plt.close()]: closes the current figure, if there is one. *)
Definition close : M unit := set_figs (fun fs => tail fs).

(** Running a script body as a process: status 0 on normal completion,
    1 when an exception is not caught (the scripts catch none). *)
Definition run_script (body : M unit) (w : world) : Z * world :=
  match body w with
  | (Ok _, w') => (0, w')
  | (Raise _, w') => (1, w')
  end.

End Mpl.

(** ** scripts/generate_charts.py *)

Module GenerateCharts.
Import Float64 Py Mpl.
Local Open Scope py_scope.

(** The label loop of chart 1 ([f'{height:.1f}']) and of charts 2 and 3
    ([f'{height:.2f}']): one text per bar, centred above it. *)
Definition label_bars (ax : nat) (decimals : nat)
    (groups : list bar_container) : M unit :=
  for_each groups (fun bars =>
    for_each (bc_patches bars) (fun bar =>
      let height := get_height bar in
      ax_text ax (add (get_x bar) (div (get_width bar) (lit 2 0))) height
        (format_fixed decimals height) "center" "bottom" 9 None)).

(** Chart 1, sizes after conversion (source lines 27-54). *)
Definition chart1 (datasets : list string)
    (csv_sizes lsm_sizes pg_sizes : list float) : M unit :=
  ax1 <- subplots (10, 6) ;;
  let x := Np.arange (length datasets) in
  let width := lit 25 2 in
  bars1 <- bar ax1 (Np.sub_scalar x width) csv_sizes width
             (Some "CSV"%string) ["#3498db"%string] ;;
  bars2 <- bar ax1 (Np.astype_float x) lsm_sizes width
             (Some "LSM"%string) ["#e74c3c"%string] ;;
  bars3 <- bar ax1 (Np.add_scalar x width) pg_sizes width
             (Some "PostgreSQL"%string) ["#2ecc71"%string] ;;
  set_xlabel ax1 "Датасет" 12 ;;
  set_ylabel ax1 "Размер (MB)" 12 ;;
  set_title ax1 "Размеры после преобразования" 14 "bold" ;;
  set_xticks ax1 x ;;
  set_xticklabels ax1 datasets ;;
  ax_legend ax1 ;;
  ax_grid ax1 "y" (lit 3 1) ;;
  label_bars ax1 1 [bars1; bars2; bars3] ;;
  tight_layout ;;
  savefig "docs/images/lab3_sizes.png" 300 BboxTight ;;
  print "✓ График 1 сохранен: docs/images/lab3_sizes.png" ;;
  close.

(** Chart 2, full-read time (source lines 57-83). *)
Definition chart2 (datasets : list string)
    (lsm_read_times pg_read_times : list float) : M unit :=
  ax2 <- subplots (10, 6) ;;
  let x := Np.arange (length datasets) in
  let width := lit 35 2 in
  bars1 <- bar ax2 (Np.sub_scalar x (div width (of_Z 2))) lsm_read_times width
             (Some "LSM"%string) ["#e74c3c"%string] ;;
  bars2 <- bar ax2 (Np.add_scalar x (div width (of_Z 2))) pg_read_times width
             (Some "PostgreSQL"%string) ["#2ecc71"%string] ;;
  set_xlabel ax2 "Датасет" 12 ;;
  set_ylabel ax2 "Время (секунды)" 12 ;;
  set_title ax2 "Время полного чтения" 14 "bold" ;;
  set_xticks ax2 x ;;
  set_xticklabels ax2 datasets ;;
  ax_legend ax2 ;;
  ax_grid ax2 "y" (lit 3 1) ;;
  label_bars ax2 2 [bars1; bars2] ;;
  tight_layout ;;
  savefig "docs/images/lab3_read.png" 300 BboxTight ;;
  print "✓ График 2 сохранен: docs/images/lab3_read.png" ;;
  close.

(** Chart 3, write / import time (source lines 86-112). *)
Definition chart3 (datasets : list string)
    (lsm_write_times pg_write_times : list float) : M unit :=
  ax3 <- subplots (10, 6) ;;
  let x := Np.arange (length datasets) in
  let width := lit 35 2 in
  bars1 <- bar ax3 (Np.sub_scalar x (div width (of_Z 2))) lsm_write_times width
             (Some "LSM"%string) ["#e74c3c"%string] ;;
  bars2 <- bar ax3 (Np.add_scalar x (div width (of_Z 2))) pg_write_times width
             (Some "PostgreSQL"%string) ["#2ecc71"%string] ;;
  set_xlabel ax3 "Датасет" 12 ;;
  set_ylabel ax3 "Время (секунды)" 12 ;;
  set_title ax3 "Время записи / импорта" 14 "bold" ;;
  set_xticks ax3 x ;;
  set_xticklabels ax3 datasets ;;
  ax_legend ax3 ;;
  ax_grid ax3 "y" (lit 3 1) ;;
  label_bars ax3 2 [bars1; bars2] ;;
  tight_layout ;;
  savefig "docs/images/lab3_write.png" 300 BboxTight ;;
  print "✓ График 3 сохранен: docs/images/lab3_write.png" ;;
  close.

(** The literal data (source lines 15-24). *)
Definition datasets : list string := ["trade_data"; "tweets"]%string.
Definition csv_sizes : list float := [lit 26549 2; lit 399758 2].
Definition lsm_sizes : list float := [lit 79245 2; lit 625766 2].
Definition pg_sizes : list float := [lit 114617 2; lit 898794 2].

Definition lsm_read_times : list float := [lit 2472 2; lit 11060 2].
Definition pg_read_times : list float := [lit 693 2; lit 5258 2].

Definition lsm_write_times : list float := [lit 16274 2; lit 57821 2].
Definition pg_write_times : list float := [lit 29443 2; lit 152190 2].

(** The whole script, top to bottom. *)
Definition main : M unit :=
  set_font_family "DejaVu Sans" ;;
  set_font_size 10 ;;
  chart1 datasets csv_sizes lsm_sizes pg_sizes ;;
  chart2 datasets lsm_read_times pg_read_times ;;
  chart3 datasets lsm_write_times pg_write_times ;;
  print (nl +:+ "Все графики успешно созданы!").

End GenerateCharts.

(** ** scripts/generate_compression_charts.py *)

Module GenerateCompressionCharts.
Import Float64 Py Mpl.
Local Open Scope py_scope.

Definition palette : list string := ["#e74c3c"; "#3498db"; "#2ecc71"]%string.

(** The label loops: [for bar, v in zip(bars, values)], the text being
    [v] with two decimals followed by a unit ([f'{ratio:.2f}×'],
    [f'{time:.2f} с']). *)
Definition label_values (ax : nat) (bars : bar_container)
    (values : list float) (unit_suffix : string) (fontsize : Z) : M unit :=
  for_each (zip (bc_patches bars) values) (fun bv =>
    let bar := fst bv in
    let v := snd bv in
    let height := get_height bar in
    ax_text ax (add (get_x bar) (div (get_width bar) (lit 2 0))) height
      (format_fixed 2 v +:+ unit_suffix) "center" "bottom" fontsize
      (Some "bold"%string)).

(** Chart 1, compression ratios (source lines 21-37). *)
Definition chart1 (algorithms : list string)
    (compression_ratios : list float) : M unit :=
  ax1 <- subplots (10, 6) ;;
  bars <- bar_categorical ax1 algorithms compression_ratios palette ;;
  set_ylabel ax1 "Коэффициент сжатия" 12 ;;
  set_title ax1 "Коэффициенты сжатия для trade_data (278.38 MB)" 14 "bold" ;;
  ax_grid ax1 "y" (lit 3 1) ;;
  label_values ax1 bars compression_ratios "×" 11 ;;
  tight_layout ;;
  savefig "docs/images/lab4_compression_ratio.png" 300 BboxTight ;;
  print "✓ График 1 сохранен: docs/images/lab4_compression_ratio.png" ;;
  close.

(** Chart 2, compression time, logarithmic (source lines 40-57). *)
Definition chart2 (algorithms : list string)
    (compress_times : list float) : M unit :=
  ax2 <- subplots (10, 6) ;;
  bars <- bar_categorical ax2 algorithms compress_times palette ;;
  set_ylabel ax2 "Время (секунды)" 12 ;;
  set_title ax2 "Время сжатия для trade_data (278.38 MB)" 14 "bold" ;;
  ax_grid ax2 "y" (lit 3 1) ;;
  set_yscale ax2 Log ;;
  label_values ax2 bars compress_times " с" 10 ;;
  tight_layout ;;
  savefig "docs/images/lab4_compress_time.png" 300 BboxTight ;;
  print "✓ График 2 сохранен: docs/images/lab4_compress_time.png" ;;
  close.

(** Chart 3, decompression time, logarithmic (source lines 60-77). *)
Definition chart3 (algorithms : list string)
    (decompress_times : list float) : M unit :=
  ax3 <- subplots (10, 6) ;;
  bars <- bar_categorical ax3 algorithms decompress_times palette ;;
  set_ylabel ax3 "Время (секунды)" 12 ;;
  set_title ax3 "Время распаковки для trade_data (278.38 MB)" 14 "bold" ;;
  ax_grid ax3 "y" (lit 3 1) ;;
  set_yscale ax3 Log ;;
  label_values ax3 bars decompress_times " с" 10 ;;
  tight_layout ;;
  savefig "docs/images/lab4_decompress_time.png" 300 BboxTight ;;
  print "✓ График 3 сохранен: docs/images/lab4_decompress_time.png" ;;
  close.

(** The literal data (source lines 15-18). *)
Definition algorithms : list string :=
  ["LZ77" +:+ nl +:+ "(наша)"; "GZIP"; "ZSTD"]%string.
Definition compression_ratios : list float := [lit 229 2; lit 567 2; lit 485 2].
Definition compress_times : list float := [lit 18732 2; lit 2267 2; lit 199 2].
Definition decompress_times : list float := [lit 20315 2; lit 173 2; lit 71 2].

Definition main : M unit :=
  set_font_family "DejaVu Sans" ;;
  set_font_size 10 ;;
  chart1 algorithms compression_ratios ;;
  chart2 algorithms compress_times ;;
  chart3 algorithms decompress_times ;;
  print (nl +:+ "Все графики успешно созданы!").

End GenerateCompressionCharts.

(** ** The six renders side by side *)

Import Float64 Py Mpl.

(** The chart blocks under one name, so that a statement can range over
    every render the two scripts perform.  The arguments are the
    module-level arrays the block reads. *)
Inductive invocation :=
| Lab3Sizes (datasets : list string) (csv_sizes lsm_sizes pg_sizes : list float)
| Lab3Read (datasets : list string) (lsm_read_times pg_read_times : list float)
| Lab3Write (datasets : list string)
    (lsm_write_times pg_write_times : list float)
| Lab4Ratio (algorithms : list string) (compression_ratios : list float)
| Lab4CompressTime (algorithms : list string) (compress_times : list float)
| Lab4DecompressTime (algorithms : list string) (decompress_times : list float).

Definition render (i : invocation) : M unit :=
  match i with
  | Lab3Sizes d a b c => GenerateCharts.chart1 d a b c
  | Lab3Read d a b => GenerateCharts.chart2 d a b
  | Lab3Write d a b => GenerateCharts.chart3 d a b
  | Lab4Ratio d a => GenerateCompressionCharts.chart1 d a
  | Lab4CompressTime d a => GenerateCompressionCharts.chart2 d a
  | Lab4DecompressTime d a => GenerateCompressionCharts.chart3 d a
  end.

Definition categories (i : invocation) : list string :=
  match i with
  | Lab3Sizes d _ _ _ | Lab3Read d _ _ | Lab3Write d _ _
  | Lab4Ratio d _ | Lab4CompressTime d _ | Lab4DecompressTime d _ => d
  end.

Definition series (i : invocation) : list (list float) :=
  match i with
  | Lab3Sizes _ a b c => [a; b; c]
  | Lab3Read _ a b | Lab3Write _ a b => [a; b]
  | Lab4Ratio _ a | Lab4CompressTime _ a | Lab4DecompressTime _ a => [a]
  end.

(** The path literal of the block's [savefig] call. *)
Definition output_path (i : invocation) : string :=
  match i with
  | Lab3Sizes _ _ _ _ => "docs/images/lab3_sizes.png"
  | Lab3Read _ _ _ => "docs/images/lab3_read.png"
  | Lab3Write _ _ _ => "docs/images/lab3_write.png"
  | Lab4Ratio _ _ => "docs/images/lab4_compression_ratio.png"
  | Lab4CompressTime _ _ => "docs/images/lab4_compress_time.png"
  | Lab4DecompressTime _ _ => "docs/images/lab4_decompress_time.png"
  end.

(** The line the block prints after saving. *)
Definition confirmation (i : invocation) : string :=
  match i with
  | Lab3Sizes _ _ _ _ => "✓ График 1 сохранен: docs/images/lab3_sizes.png"
  | Lab3Read _ _ _ => "✓ График 2 сохранен: docs/images/lab3_read.png"
  | Lab3Write _ _ _ => "✓ График 3 сохранен: docs/images/lab3_write.png"
  | Lab4Ratio _ _ =>
      "✓ График 1 сохранен: docs/images/lab4_compression_ratio.png"
  | Lab4CompressTime _ _ =>
      "✓ График 2 сохранен: docs/images/lab4_compress_time.png"
  | Lab4DecompressTime _ _ =>
      "✓ График 3 сохранен: docs/images/lab4_decompress_time.png"
  end.

(** Shapes that numpy broadcasts against each other. *)
Definition compatible (n m : nat) : bool :=
  Nat.eqb n m || Nat.eqb n 1 || Nat.eqb m 1.

(** Every series can be drawn against the category axis. *)
Definition well_shaped (i : invocation) : bool :=
  forallb (fun s => compatible (length (categories i)) (length s)) (series i).

(** The directory all six paths lie in. *)
Definition output_dir : string := "docs/images".

Definition writable (w : world) : Prop := dirs w !! output_dir = Some true.

(** What the scripts leave in rcParams. *)
Definition script_rc : rcparams :=
  {| font_family := "DejaVu Sans"; font_size := 10 |}.

Definition final_message : string :=
  nl +:+ "Все графики успешно созданы!".

(** A freshly started interpreter (matplotlib's default font settings, no
    open figure, nothing printed) in a checkout whose [docs/images]
    exists, is writable and is still empty. *)
Definition fresh_process : world :=
  {| rc := {| font_family := "sans-serif"; font_size := 10 |};
     figs := [];
     dirs := {[ output_dir := true ]};
     files := ∅;
     stdout := [] |}.

(** The same interpreter where [docs/images] does not exist. *)
Definition no_output_dir : world :=
  {| rc := rc fresh_process; figs := []; dirs := ∅; files := ∅;
     stdout := [] |}.

(** The file a script body leaves at [path] when run in a fresh process. *)
Definition rendered (body : M unit) (path : string) : option image :=
  files (snd (body fresh_process)) !! path.

Definition png300 (f : figure) : image :=
  {| img_format := PNG; img_dpi := 300; img_bbox := BboxTight;
     img_figure := f |}.

(** World [w] with one more open figure, which becomes the current one. *)
Definition with_fig (h : nat) (f : figure) (w : world) : world :=
  {| rc := rc w; figs := (h, f) :: figs w; dirs := dirs w;
     files := files w; stdout := stdout w |}.

(** World [w] after a block saved figure [f] and printed [msg]. *)
Definition saved (path msg : string) (f : figure) (w : world) : world :=
  {| rc := rc w; figs := figs w; dirs := dirs w;
     files := <[path := png300 f]> (files w); stdout := stdout w ++ [msg] |}.

(** The three ways a block that reached [savefig] can end. *)
Definition save_outcome (path msg : string) (f : figure) (w : world)
    : result unit * world :=
  match dirs w !! dirname path with
  | Some true => (Ok tt, saved path msg f w)
  | Some false =>
      (Raise (PermissionError path), with_fig (next_num (figs w)) f w)
  | None =>
      (Raise (FileNotFoundError path), with_fig (next_num (figs w)) f w)
  end.

Definition new_fig (size : Z * Z) (r : rcparams) : figure :=
  {| figsize := size; fig_rc := r; fig_axes := empty_axes;
     fig_tight_layout := false |}.

(** The text the label loop of [generate_charts.py] puts on a bar. *)
Definition bar_text (decimals : nat) (bar : rectangle) : text :=
  {| text_x := add (get_x bar) (div (get_width bar) (lit 2 0));
     text_y := get_height bar;
     text_s := format_fixed decimals (get_height bar);
     text_ha := "center"; text_va := "bottom";
     text_fontsize := 9; text_fontweight := None |}.

(** The text the label loop of [generate_compression_charts.py] puts on a
    bar paired with value [v]. *)
Definition value_text (unit_suffix : string) (fontsize : Z)
    (bv : rectangle * float) : text :=
  {| text_x := add (get_x (fst bv)) (div (get_width (fst bv)) (lit 2 0));
     text_y := get_height (fst bv);
     text_s := format_fixed 2 (snd bv) +:+ unit_suffix;
     text_ha := "center"; text_va := "bottom";
     text_fontsize := fontsize; text_fontweight := Some "bold"%string |}.

(** A block either stops at the first [bar] call whose arrays do not
    broadcast, having written and printed nothing, or reaches [savefig]
    with a figure [F] that depends on the data and on rcParams only. *)
Definition block_spec (body : M unit) (shaped : bool) (path msg : string)
    (rc0 : rcparams) : Prop :=
  if shaped then
    exists F, forall w, rc w = rc0 -> body w = save_outcome path msg F w
  else
    exists F, forall w, rc w = rc0 ->
      body w = (Raise (ValueError shape_mismatch),
                with_fig (next_num (figs w)) F w).

(** The shape both script bodies have: the two rcParams assignments,
    three renders, the closing message. *)
Definition script (r1 r2 r3 : invocation) : M unit :=
  bind (set_font_family "DejaVu Sans") (fun _ =>
  bind (set_font_size 10) (fun _ =>
  bind (render r1) (fun _ =>
  bind (render r2) (fun _ =>
  bind (render r3) (fun _ =>
  print final_message))))).

(** The world a script leaves behind when its three renders succeed with
    images [i1], [i2], [i3]. *)
Definition after_script (r1 r2 r3 : invocation) (i1 i2 i3 : image)
    (w : world) : world :=
  {| rc := script_rc; figs := figs w; dirs := dirs w;
     files := <[output_path r3 := i3]> (<[output_path r2 := i2]>
                (<[output_path r1 := i1]> (files w)));
     stdout := stdout w ++ [confirmation r1; confirmation r2;
                            confirmation r3; final_message] |}.

Definition lab3_sizes : invocation :=
  Lab3Sizes GenerateCharts.datasets GenerateCharts.csv_sizes
    GenerateCharts.lsm_sizes GenerateCharts.pg_sizes.
Definition lab3_read : invocation :=
  Lab3Read GenerateCharts.datasets GenerateCharts.lsm_read_times
    GenerateCharts.pg_read_times.
Definition lab3_write : invocation :=
  Lab3Write GenerateCharts.datasets GenerateCharts.lsm_write_times
    GenerateCharts.pg_write_times.
Definition lab4_ratio : invocation :=
  Lab4Ratio GenerateCompressionCharts.algorithms
    GenerateCompressionCharts.compression_ratios.
Definition lab4_compress_time : invocation :=
  Lab4CompressTime GenerateCompressionCharts.algorithms
    GenerateCompressionCharts.compress_times.
Definition lab4_decompress_time : invocation :=
  Lab4DecompressTime GenerateCompressionCharts.algorithms
    GenerateCompressionCharts.decompress_times.

(** The renders each script performs, in order, on its literal data. *)
Definition lab3_renders : list invocation :=
  [lab3_sizes; lab3_read; lab3_write].
Definition lab4_renders : list invocation :=
  [lab4_ratio; lab4_compress_time; lab4_decompress_time].

Definition all_renders : list invocation := lab3_renders ++ lab4_renders.

(** The script an invocation belongs to. *)
Definition script_of (i : invocation) : M unit :=
  match i with
  | Lab3Sizes _ _ _ _ | Lab3Read _ _ _ | Lab3Write _ _ _ =>
      GenerateCharts.main
  | Lab4Ratio _ _ | Lab4CompressTime _ _ | Lab4DecompressTime _ _ =>
      GenerateCompressionCharts.main
  end.

(** ** Reading a saved chart *)

Definition axes_of (i : image) : axes := fig_axes (img_figure i).

Definition all_patches (a : axes) : list rectangle :=
  concat (map bc_patches (containers a)).

(** The bars drawn for category number [k]: one from every [bar] call
    that reached that category, in drawing order. *)
Definition bars_at (a : axes) (k : nat) : list rectangle :=
  omap (fun c => bc_patches c !! k) (containers a).

Definition label_strings (a : axes) : list string := map text_s (texts a).

(** The format specification of the block's label loop: number of
    decimals and the literal text after the number. *)
Definition decimals (i : invocation) : nat :=
  match i with
  | Lab3Sizes _ _ _ _ => 1
  | _ => 2
  end.

Definition unit_suffix (i : invocation) : string :=
  match i with
  | Lab3Sizes _ _ _ _ | Lab3Read _ _ _ | Lab3Write _ _ _ => ""
  | Lab4Ratio _ _ => "×"
  | Lab4CompressTime _ _ | Lab4DecompressTime _ _ => " с"
  end.

(** The input values written with the block's number of decimals and the
    unit the block appends. *)
Definition unit_labels (i : invocation) : list string :=
  map (fun v => format_fixed (decimals i) v +:+ unit_suffix i)
      (concat (series i)).

(** *** The geometry of a category group

    Positions and widths are binary64 numbers; their exact values are
    compared as rationals, up to a tolerance [eps]. *)

(** The left and the right edge of a bar. *)
Definition edges (r : rectangle) : option (Q * Q) :=
  match to_Q (get_x r), to_Q (get_width r) with
  | Some l, Some wd => Some (l, (l + wd)%Q)
  | _, _ => None
  end.

Definition close_to (eps a b : Q) : bool := Qle_bool (Qabs (a - b)) eps.

(** All bars are as wide as the first one. *)
Definition equal_widths (eps : Q) (es : list (Q * Q)) : bool :=
  match es with
  | [] => true
  | e :: _ =>
      forallb (fun e' => close_to eps (snd e' - fst e') (snd e - fst e)) es
  end.

(** Every bar starts where the one before it ends. *)
Fixpoint no_gaps (eps : Q) (es : list (Q * Q)) : bool :=
  match es with
  | e1 :: ((e2 :: _) as rest) =>
      close_to eps (snd e1) (fst e2) && no_gaps eps rest
  | _ => true
  end.

(** The layout of one category group, read off the edges [es] of its
    bars in drawing order: [n] bars of equal width, each starting where
    the one before it ends, the whole group between 0.7 and 0.8 of a
    category unit wide and centred on [tick]. *)
Definition slot_layout (eps : Q) (n : nat) (tick : Q) (es : list (Q * Q))
    : bool :=
  Nat.eqb (length es) n
  && equal_widths eps es
  && no_gaps eps es
  && match head es, last es with
     | Some f, Some l =>
         Qle_bool ((7 # 10) - eps) (snd l - fst f)
         && Qle_bool (snd l - fst f) ((8 # 10) + eps)
         && close_to eps ((fst f + snd l) / 2) tick
     | _, _ => false
     end.

(** The same for every category of a saved chart: the axis has one tick
    per category, and the bars drawn for category number [k] form a group
    around tick number [k], with one bar per series. *)
Definition chart_layout (eps : Q) (i : invocation) (a : axes) : bool :=
  match xticks a with
  | Some ticks =>
      Nat.eqb (length ticks) (length (categories i))
      && forallb (fun kt =>
             match to_Q (snd kt), mapM edges (bars_at a (fst kt)) with
             | Some tick, Some es =>
                 slot_layout eps (length (series i)) tick es
             | _, _ => false
             end)
           (imap (fun k t => (k, t)) ticks)
  | None => false
  end.

(** One bar per series in every category. *)
Definition bars_per_category (i : invocation) (a : axes) : bool :=
  forallb (fun k => Nat.eqb (length (bars_at a k)) (length (series i)))
          (seq 0 (length (categories i))).

Definition positive_heights (a : axes) : bool :=
  forallb (fun r => ltb zero (get_height r)) (all_patches a).

(** A check on the chart an invocation's script saves in a fresh
    process. *)
Definition check_rendered (P : invocation -> image -> bool)
    (i : invocation) : bool :=
  match rendered (script_of i) (output_path i) with
  | Some img => P i img
  | None => false
  end.

(** On a logarithmic axis every bar and every input value is positive. *)
Definition log_positive (i : invocation) (img : image) : bool :=
  match yscale (axes_of img) with
  | Log =>
      positive_heights (axes_of img)
      && forallb (ltb zero) (concat (series i))
  | Linear => true
  end.

(** Bitwise equality of floats (unlike [eqb], which follows IEEE and
    equates the two zeros). *)
Definition same_float (u v : float) : bool :=
  match u, v with
  | S754_zero a, S754_zero b => Bool.eqb a b
  | S754_infinity a, S754_infinity b => Bool.eqb a b
  | S754_nan, S754_nan => true
  | S754_finite a m e, S754_finite b n f =>
      Bool.eqb a b && Pos.eqb m n && Z.eqb e f
  | _, _ => false
  end.

Fixpoint list_eqb {A} (eq : A -> A -> bool) (l1 l2 : list A) : bool :=
  match l1, l2 with
  | [], [] => true
  | a :: l1', b :: l2' => eq a b && list_eqb eq l1' l2'
  | _, _ => false
  end.

(** One bar per series in every category, the input values as bar
    heights in drawing order, and the labels of [unit_labels]. *)
Definition labels_check (i : invocation) (img : image) : bool :=
  bars_per_category i (axes_of img)
  && list_eqb same_float (map get_height (all_patches (axes_of img)))
                         (concat (series i))
  && bool_decide (label_strings (axes_of img) = unit_labels i).

(** Every [bar] call drew one bar per category, and pairing a call's
    bars with any of the chart's series leaves nothing over on either
    side. *)
Definition pairing_check (i : invocation) (img : image) : bool :=
  forallb (fun c =>
      Nat.eqb (length (bc_patches c)) (length (categories i))
      && forallb (fun s =>
             Nat.eqb (length (zip (bc_patches c) s)) (length s)
             && Nat.eqb (length (zip (bc_patches c) s))
                        (length (bc_patches c)))
           (series i))
    (containers (axes_of img))
  && Nat.eqb (length (containers (axes_of img))) (length (series i))
  && Nat.eqb (length (texts (axes_of img)))
             (length (all_patches (axes_of img))).

(** The sizes chart with a CSV series of one value, and with an empty
    one, against the two literal categories. *)
Definition short_series : invocation :=
  Lab3Sizes GenerateCharts.datasets [lit 26549 2]
    GenerateCharts.lsm_sizes GenerateCharts.pg_sizes.


(** An interpreter with the same rcParams that has already drawn and
    printed, in a checkout that holds an older image. *)
Definition busy_process : world :=
  {| rc := rc fresh_process;
     figs := [(7%nat, new_fig default_figsize (rc fresh_process))];
     dirs := {[ output_dir := true ]};
     files := {[ "docs/images/lab3_sizes.png"%string :=
                   png300 (new_fig default_figsize (rc fresh_process)) ]};
     stdout := ["earlier output"%string] |}.

(** ** What a block puts into its figure *)

(** Blocks that pass the category names themselves as x positions. *)
Definition categorical (i : invocation) : bool :=
  match i with
  | Lab4Ratio _ _ | Lab4CompressTime _ _ | Lab4DecompressTime _ _ => true
  | _ => false
  end.

(** A [bar] call as a block makes it: legend label, colours, positions
    and heights as passed, and the width the bars end up with. *)
Record bar_call := {
  call_label : option string;
  call_colors : list string;
  call_x : list float;
  call_width : float;
  call_height : list float
}.

(** A call of generate_charts.py: one colour, numeric positions. *)
Definition numeric_call (lbl colour : string) (x : list float)
    (width : float) (height : list float) : bar_call :=
  {| call_label := Some lbl; call_colors := [colour]; call_x := x;
     call_width := convert_width x width; call_height := height |}.

(** The [bar] calls of a block, in order. *)
Definition bar_calls (i : invocation) : list bar_call :=
  match i with
  | Lab3Sizes d a b c =>
      let x := Np.arange (length d) in
      [ numeric_call "CSV" "#3498db" (Np.sub_scalar x (lit 25 2))
          (lit 25 2) a;
        numeric_call "LSM" "#e74c3c" (Np.astype_float x) (lit 25 2) b;
        numeric_call "PostgreSQL" "#2ecc71" (Np.add_scalar x (lit 25 2))
          (lit 25 2) c ]
  | Lab3Read d a b | Lab3Write d a b =>
      let x := Np.arange (length d) in
      [ numeric_call "LSM" "#e74c3c"
          (Np.sub_scalar x (div (lit 35 2) (of_Z 2))) (lit 35 2) a;
        numeric_call "PostgreSQL" "#2ecc71"
          (Np.add_scalar x (div (lit 35 2) (of_Z 2))) (lit 35 2) b ]
  | Lab4Ratio d a | Lab4CompressTime d a | Lab4DecompressTime d a =>
      [ {| call_label := None;
           call_colors := GenerateCompressionCharts.palette;
           call_x := Np.astype_float (convert_units d);
           call_width := default_bar_width; call_height := a |} ]
  end.

(** The container a [bar] call adds, when its arrays broadcast. *)
Definition drawn (call : bar_call) : option bar_container :=
  match Np.broadcast (call_x call) (map convert_height (call_height call))
  with
  | Some xhs =>
      Some {| bc_label := call_label call;
              bc_patches := bar_patches (call_width call) (call_colors call)
                              xhs |}
  | None => None
  end.

Definition drawn_containers (i : invocation) : list bar_container :=
  omap drawn (bar_calls i).

(** The [fontsize] of the block's bar labels. *)
Definition bar_label_fontsize (i : invocation) : Z :=
  match i with
  | Lab4Ratio _ _ => 11
  | Lab4CompressTime _ _ | Lab4DecompressTime _ _ => 10
  | _ => 9
  end.

(** The texts the block's label loop adds: one per bar in
    generate_charts.py, one per (bar, value) pair in
    generate_compression_charts.py. *)
Definition drawn_texts (i : invocation) : list text :=
  match i with
  | Lab3Sizes _ _ _ _ | Lab3Read _ _ _ | Lab3Write _ _ _ =>
      map (bar_text (decimals i))
          (concat (map bc_patches (drawn_containers i)))
  | Lab4Ratio _ a | Lab4CompressTime _ a | Lab4DecompressTime _ a =>
      concat (map (fun c => map (value_text (unit_suffix i)
                                            (bar_label_fontsize i))
                                (zip (bc_patches c) a))
                  (drawn_containers i))
  end.

(** The number a label shows for input value [v]: the height of the
    drawn bar in generate_charts.py ([f'{height:.1f}']), the value itself
    in generate_compression_charts.py ([f'{ratio:.2f}']). *)
Definition label_value (i : invocation) (v : float) : float :=
  if categorical i then v else convert_height v.

Definition drawn_labels (i : invocation) : list string :=
  map (fun v => format_fixed (decimals i) (label_value i v) +:+ unit_suffix i)
      (concat (series i)).

(** The y scale the block leaves on its axes. *)
Definition scale_of (i : invocation) : scale :=
  match i with
  | Lab4CompressTime _ _ | Lab4DecompressTime _ _ => Log
  | _ => Linear
  end.

(** The labels along the x axis: the datasets as given, or the distinct
    algorithm names in order of first appearance; none are set when
    there is no algorithm name at all. *)
Definition tick_labels (i : invocation) : option (list string) :=
  match i with
  | Lab3Sizes d _ _ _ | Lab3Read d _ _ | Lab3Write d _ _ => Some d
  | Lab4Ratio d _ | Lab4CompressTime d _ | Lab4DecompressTime d _ =>
      match update_units [] d with
      | [] => None
      | u :: us => Some (u :: us)
      end
  end.

(** The legend entries: one per labelled container where the block calls
    [ax.legend()], no legend otherwise. *)
Definition legend_of (i : invocation) : option (list string) :=
  match i with
  | Lab3Sizes _ _ _ _ | Lab3Read _ _ _ | Lab3Write _ _ _ =>
      Some (omap bc_label (drawn_containers i))
  | Lab4Ratio _ _ | Lab4CompressTime _ _ | Lab4DecompressTime _ _ => None
  end.

(** What a block that reaches [savefig] has put into its figure. *)
Definition figure_of (i : invocation) (rc0 : rcparams) (F : figure) : Prop :=
  fig_rc F = rc0 /\
  figsize F = (10, 6) /\
  containers (fig_axes F) = drawn_containers i /\
  texts (fig_axes F) = drawn_texts i /\
  yscale (fig_axes F) = scale_of i /\
  xticklabels (fig_axes F) = tick_labels i /\
  xticks (fig_axes F)
    = (fun l => Np.astype_float (Np.arange (length l))) <$> tick_labels i /\
  legend (fig_axes F) = legend_of i.

(** Broadcasting a list against another of length [n]: a single entry
    is repeated [n] times, any other list is taken as it is. *)
Definition stretch {A} (n : nat) (l : list A) : list A :=
  match l with
  | [v] => replicate n v
  | _ => l
  end.

(** Where a bar call puts its bars and how high they are, when positions
    and heights can be broadcast. *)
Definition bar_geometry (call : bar_call) : list (float * float * float) :=
  map (fun xh => (sub (fst xh) (div (call_width call) (of_Z 2)),
                  call_width call, convert_height (snd xh)))
      (zip (stretch (length (call_height call)) (call_x call))
           (stretch (length (call_x call)) (call_height call))).

(** The blocks of a script that run to completion: those before the
    first one whose data cannot be drawn. *)
Fixpoint completed (rs : list invocation) : list invocation :=
  match rs with
  | [] => []
  | r :: rs' => if well_shaped r then r :: completed rs' else []
  end.

(** The chart at an invocation's path carries the script's font
    settings. *)
Definition script_fonts (_ : invocation) (img : image) : bool :=
  bool_decide (font_family (fig_rc (img_figure img)) = "DejaVu Sans"%string)
  && bool_decide (font_size (fig_rc (img_figure img)) = 10).

(** Time series with a zero and a negative entry. *)
Definition nonpositive_times : invocation :=
  Lab4CompressTime ["a"; "b"]%string [zero; lit (-15) 1].

(** The colour generate_charts.py gives to the bars of a storage
    engine. *)
Definition series_colour (name : string) : option string :=
  if bool_decide (name = "CSV"%string) then Some "#3498db"%string
  else if bool_decide (name = "LSM"%string) then Some "#e74c3c"%string
  else if bool_decide (name = "PostgreSQL"%string) then Some "#2ecc71"%string
  else None.

(** A bar is painted as its series is (labelled container) or, without a
    label, by its rank in the three-colour palette. *)
Definition coloured_by_series (c : bar_container) : Prop :=
  match bc_label c with
  | Some name =>
      Forall (fun r => rect_color r = series_colour name) (bc_patches c)
  | None =>
      forall k r, bc_patches c !! k = Some r ->
        rect_color r = GenerateCompressionCharts.palette !! (k mod 3)%nat
  end.

(** ** Sample data *)

(** Ratios for three runs, two of them of the same algorithm. *)
Definition repeated_names : invocation :=
  Lab4Ratio ["zlib"; "lz4"; "zlib"]%string [lit 15 1; lit 2 0; lit 25 1].

(** A single ratio against the three algorithms of the script. *)
Definition one_ratio : invocation :=
  Lab4Ratio GenerateCompressionCharts.algorithms [lit 567 2].

(** The read-time chart with an empty LSM series. *)
Definition bad_read : invocation :=
  Lab3Read GenerateCharts.datasets [] GenerateCharts.pg_read_times.

(** A bar of height 0.25. *)
Definition quarter_bar : rectangle :=
  {| rect_x := zero; rect_y := zero; rect_width := lit 8 1;
     rect_height := lit 25 2; rect_color := None |}.

(** The read-time chart for one dataset whose LSM time is a negative
    zero. *)
Definition negative_zero_read : invocation :=
  Lab3Read ["a"]%string [S754_zero true] [lit 15 1].

(** A bar of the default width centred on position [p]. *)
Definition centred_on (p : nat) (r : rectangle) : Prop :=
  get_x r = sub (of_Z (Z.of_nat p)) (div default_bar_width (of_Z 2)) /\
  get_width r = default_bar_width.

(** * Verification *)

(** ** The float model on known values *)

(** [format(0.125, '.2f')] is ['0.12'] and [format(2.5, '.0f')] is ['2']:
    ties go to the even digit. *)
Example format_ties_to_even :
  format_fixed 2 (lit 125 3) = "0.12"%string /\
  format_fixed 0 (lit 25 1) = "2"%string.
Proof. split; reflexivity. Qed.

(** The literal [792.45] is stored as a double slightly above 792.45, the
    literal [0.35] as one slightly below 0.35. *)
Example stored_literals :
  lit 79245 2 = S754_finite false 6970463915448730 (-43) /\
  format_fixed 20 (lit 79245 2) = "792.45000000000004547474"%string /\
  lit 35 2 = S754_finite false 6305039478318694 (-54) /\
  format_fixed 20 (lit 35 2) = "0.34999999999999997780"%string.
Proof. repeat split; vm_compute; reflexivity. Qed.

(** Integers and binary fractions are exact. *)
Example exact_literals :
  of_Z 1 = S754_finite false 4503599627370496 (-52) /\
  lit 25 2 = S754_finite false 4503599627370496 (-54) /\
  sub (of_Z 1) (lit 25 2) = lit 75 2.
Proof. repeat split; vm_compute; reflexivity. Qed.

(** ** Stepping through a block *)

Lemma bind_ok {A B} (m : M A) (k : A -> M B) u a u' :
  m u = (Ok a, u') -> bind m k u = k a u'.
Proof. intros E. unfold bind. now rewrite E. Qed.

Lemma bind_raise {A B} (m : M A) (k : A -> M B) u e u' :
  m u = (Raise e, u') -> bind m k u = (Raise e, u').
Proof. intros E. unfold bind. now rewrite E. Qed.

Lemma add_texts_app ts1 ts2 a :
  add_texts ts2 (add_texts ts1 a) = add_texts (ts1 ++ ts2) a.
Proof. unfold add_texts. cbn. now rewrite app_assoc. Qed.

Lemma add_texts_nil a : add_texts [] a = a.
Proof. destruct a. unfold add_texts. cbn. now rewrite app_nil_r. Qed.

Lemma map_axes_add_texts_nil f : map_axes (add_texts []) f = f.
Proof. destruct f. unfold map_axes. cbn. now rewrite add_texts_nil. Qed.

Lemma map_axes_add_texts_app ts1 ts2 f :
  map_axes (add_texts ts2) (map_axes (add_texts ts1) f) =
  map_axes (add_texts (ts1 ++ ts2)) f.
Proof. unfold map_axes. cbn. now rewrite add_texts_app. Qed.

Lemma subplots_top size w :
  subplots size w =
  (Ok (next_num (figs w)),
   with_fig (next_num (figs w)) (new_fig size (rc w)) w).
Proof. reflexivity. Qed.

Section Exec.
Variables (h : nat) (w : world).

(** While the figure behind [h] is the current one, an axes method
    rewrites it in place and touches nothing else. *)
Lemma ax_update_top g f :
  ax_update h g (with_fig h f w) = (Ok tt, with_fig h (map_axes g f) w).
Proof.
  unfold ax_update, set_figs, with_fig. cbn. now rewrite Nat.eqb_refl.
Qed.

Lemma draw_bars_top x height width lbl colors xhs f :
  Np.broadcast x (map convert_height height) = Some xhs ->
  draw_bars h x height width lbl colors (with_fig h f w) =
  (Ok {| bc_label := lbl; bc_patches := bar_patches width colors xhs |},
   with_fig h (map_axes (add_container
      {| bc_label := lbl; bc_patches := bar_patches width colors xhs |}) f)
     w).
Proof.
  intros E. unfold draw_bars. rewrite E.
  erewrite bind_ok by apply ax_update_top. reflexivity.
Qed.

Lemma draw_bars_mismatch x height width lbl colors u :
  Np.broadcast x (map convert_height height) = None ->
  draw_bars h x height width lbl colors u
  = (Raise (ValueError shape_mismatch), u).
Proof. intros E. unfold draw_bars. now rewrite E. Qed.

Lemma bar_top x height width lbl colors xhs f :
  Np.broadcast x (map convert_height height) = Some xhs ->
  bar h x height width lbl colors (with_fig h f w) =
  (Ok {| bc_label := lbl;
         bc_patches := bar_patches (convert_width x width) colors xhs |},
   with_fig h (map_axes (add_container
      {| bc_label := lbl;
         bc_patches := bar_patches (convert_width x width) colors xhs |}) f)
     w).
Proof. apply draw_bars_top. Qed.

Lemma bar_mismatch x height width lbl colors u :
  Np.broadcast x (map convert_height height) = None ->
  bar h x height width lbl colors u = (Raise (ValueError shape_mismatch), u).
Proof. apply draw_bars_mismatch. Qed.

Lemma bar_categorical_top labels height colors xhs f :
  Np.broadcast (Np.astype_float (convert_units labels))
    (map convert_height height) = Some xhs ->
  bar_categorical h labels height colors (with_fig h f w) =
  (Ok {| bc_label := None;
         bc_patches := bar_patches default_bar_width colors xhs |},
   with_fig h
     (map_axes (add_container
        {| bc_label := None;
           bc_patches := bar_patches default_bar_width colors xhs |})
        (map_axes (category_axis (update_units [] labels)) f))
     w).
Proof.
  intros E. unfold bar_categorical.
  erewrite bind_ok by apply ax_update_top.
  now apply draw_bars_top.
Qed.

Lemma bar_categorical_mismatch labels height colors f :
  Np.broadcast (Np.astype_float (convert_units labels))
    (map convert_height height) = None ->
  bar_categorical h labels height colors (with_fig h f w) =
  (Raise (ValueError shape_mismatch),
   with_fig h (map_axes (category_axis (update_units [] labels)) f) w).
Proof.
  intros E. unfold bar_categorical.
  erewrite bind_ok by apply ax_update_top.
  now apply draw_bars_mismatch.
Qed.

(** A loop of [ax.text] calls adds its texts in iteration order. *)
Lemma for_each_text {A} (l : list A) (mk : A -> text) f :
  for_each l (fun a => ax_update h (add_texts [mk a])) (with_fig h f w) =
  (Ok tt, with_fig h (map_axes (add_texts (map mk l)) f) w).
Proof.
  revert f. induction l as [|a l IH]; intros f; cbn [for_each map].
  - unfold ret. now rewrite map_axes_add_texts_nil.
  - erewrite bind_ok by apply ax_update_top. rewrite IH.
    now rewrite map_axes_add_texts_app.
Qed.

Lemma label_bars_top p groups f :
  GenerateCharts.label_bars h p groups (with_fig h f w) =
  (Ok tt, with_fig h (map_axes (add_texts
     (concat (map (fun bars => map (bar_text p) (bc_patches bars)) groups)))
     f) w).
Proof.
  unfold GenerateCharts.label_bars. revert f.
  induction groups as [|g gs IH]; intros f; cbn [for_each map concat].
  - unfold ret. now rewrite map_axes_add_texts_nil.
  - erewrite bind_ok by (apply (for_each_text _ (bar_text p))).
    rewrite IH. now rewrite map_axes_add_texts_app.
Qed.

Lemma label_values_top bars values unit_suffix fontsize f :
  GenerateCompressionCharts.label_values h bars values unit_suffix fontsize
    (with_fig h f w) =
  (Ok tt, with_fig h (map_axes (add_texts
     (map (value_text unit_suffix fontsize) (zip (bc_patches bars) values)))
     f) w).
Proof.
  unfold GenerateCompressionCharts.label_values.
  apply (for_each_text _ (value_text unit_suffix fontsize)).
Qed.

Lemma tight_layout_top f :
  tight_layout (with_fig h f w) = (Ok tt, with_fig h (with_tight_layout f) w).
Proof.
  unfold tight_layout, bind, gcf, set_figs, with_fig. cbn.
  now rewrite Nat.eqb_refl.
Qed.

End Exec.

(** The tail of every block: save, confirm, close. *)
Lemma savefig_tail path msg f w :
  format_of_extension (extension path) = Some PNG ->
  bind (savefig path 300 BboxTight) (fun _ => bind (print msg) (fun _ => close))
    (with_fig (next_num (figs w)) f w) = save_outcome path msg f w.
Proof.
  intros E. unfold save_outcome, savefig, bind at 1 2, gcf.
  cbn [figs with_fig]. rewrite E. unfold write_file. cbn [dirs with_fig].
  destruct (dirs w !! dirname path) as [[|]|]; reflexivity.
Qed.

Ltac ax_step :=
  first
    [ erewrite bind_ok by (apply ax_update_top)
    | erewrite bind_ok by (apply label_bars_top)
    | erewrite bind_ok by (apply label_values_top)
    | erewrite bind_ok by (apply tight_layout_top) ].

Ltac ax_steps :=
  unfold set_xlabel, set_ylabel, set_title, set_xticks, set_xticklabels,
    ax_legend, ax_grid, set_yscale;
  repeat ax_step.

(** ** What each block does, for any data and any world *)

Lemma broadcast_cases {A B} (a : list A) (b : list B) :
  match Np.broadcast a b with
  | Some _ => compatible (length a) (length b) = true
  | None => compatible (length a) (length b) = false
  end.
Proof.
  unfold Np.broadcast, compatible. case_bool_decide as E.
  - rewrite E, Nat.eqb_refl. reflexivity.
  - apply Nat.eqb_neq in E. rewrite E.
    destruct a as [|x [|x' a]], b as [|y [|y' b]]; reflexivity.
Qed.

Lemma length_arange n : length (Np.arange n) = n.
Proof. unfold Np.arange. rewrite length_seqZ. apply Nat2Z.id. Qed.

Lemma length_sub_scalar x s : length (Np.sub_scalar x s) = length x.
Proof. unfold Np.sub_scalar, Np.astype_float. now rewrite !length_map. Qed.

Lemma length_add_scalar x s : length (Np.add_scalar x s) = length x.
Proof. unfold Np.add_scalar, Np.astype_float. now rewrite !length_map. Qed.

Lemma length_astype_float x : length (Np.astype_float x) = length x.
Proof. unfold Np.astype_float. now rewrite length_map. Qed.

Lemma length_convert_units labels :
  length (convert_units labels) = length labels.
Proof. unfold convert_units. now rewrite length_map. Qed.

(** Splits on the outcome of broadcasting [x] against [s] and records
    what it means for [compatible]. *)
Ltac split_broadcast x s E :=
  let H := fresh "H" in
  pose proof (broadcast_cases x s) as H;
  rewrite ?length_map in H;
  rewrite ?length_sub_scalar, ?length_add_scalar, ?length_astype_float,
    ?length_convert_units, ?length_arange in H;
  destruct (Np.broadcast x s) eqn:E; rewrite H; clear H; cbn [andb].

Ltac enter_block body :=
  eexists; intros w Hrc; unfold body;
  erewrite bind_ok by (apply subplots_top); rewrite Hrc.

Lemma lab3_chart1_spec d a b c rc0 :
  block_spec (GenerateCharts.chart1 d a b c) (well_shaped (Lab3Sizes d a b c))
    "docs/images/lab3_sizes.png"
    "✓ График 1 сохранен: docs/images/lab3_sizes.png" rc0.
Proof.
  unfold block_spec, well_shaped. cbn [series categories forallb].
  split_broadcast (Np.sub_scalar (Np.arange (length d)) (lit 25 2))
      (map convert_height a) E1;
  [ split_broadcast (Np.astype_float (Np.arange (length d)))
      (map convert_height b) E2;
    [ split_broadcast (Np.add_scalar (Np.arange (length d)) (lit 25 2))
        (map convert_height c) E3
    | ] | ];
  enter_block GenerateCharts.chart1.
  - do 3 (erewrite bind_ok by (apply bar_top; eassumption)).
    ax_steps. now apply savefig_tail.
  - do 2 (erewrite bind_ok by (apply bar_top; eassumption)).
    erewrite bind_raise by (apply bar_mismatch; eassumption). reflexivity.
  - erewrite bind_ok by (apply bar_top; eassumption).
    erewrite bind_raise by (apply bar_mismatch; eassumption). reflexivity.
  - erewrite bind_raise by (apply bar_mismatch; eassumption). reflexivity.
Qed.

Lemma lab3_chart2_spec d a b rc0 :
  block_spec (GenerateCharts.chart2 d a b) (well_shaped (Lab3Read d a b))
    "docs/images/lab3_read.png"
    "✓ График 2 сохранен: docs/images/lab3_read.png" rc0.
Proof.
  unfold block_spec, well_shaped. cbn [series categories forallb].
  split_broadcast
    (Np.sub_scalar (Np.arange (length d)) (div (lit 35 2) (of_Z 2)))
        (map convert_height a) E1;
  [ split_broadcast
      (Np.add_scalar (Np.arange (length d)) (div (lit 35 2) (of_Z 2)))
          (map convert_height b) E2
  | ];
  enter_block GenerateCharts.chart2.
  - do 2 (erewrite bind_ok by (apply bar_top; eassumption)).
    ax_steps. now apply savefig_tail.
  - erewrite bind_ok by (apply bar_top; eassumption).
    erewrite bind_raise by (apply bar_mismatch; eassumption). reflexivity.
  - erewrite bind_raise by (apply bar_mismatch; eassumption). reflexivity.
Qed.

Lemma lab3_chart3_spec d a b rc0 :
  block_spec (GenerateCharts.chart3 d a b) (well_shaped (Lab3Write d a b))
    "docs/images/lab3_write.png"
    "✓ График 3 сохранен: docs/images/lab3_write.png" rc0.
Proof.
  unfold block_spec, well_shaped. cbn [series categories forallb].
  split_broadcast
    (Np.sub_scalar (Np.arange (length d)) (div (lit 35 2) (of_Z 2)))
        (map convert_height a) E1;
  [ split_broadcast
      (Np.add_scalar (Np.arange (length d)) (div (lit 35 2) (of_Z 2)))
          (map convert_height b) E2
  | ];
  enter_block GenerateCharts.chart3.
  - do 2 (erewrite bind_ok by (apply bar_top; eassumption)).
    ax_steps. now apply savefig_tail.
  - erewrite bind_ok by (apply bar_top; eassumption).
    erewrite bind_raise by (apply bar_mismatch; eassumption). reflexivity.
  - erewrite bind_raise by (apply bar_mismatch; eassumption). reflexivity.
Qed.

Lemma lab4_chart1_spec d a rc0 :
  block_spec (GenerateCompressionCharts.chart1 d a)
    (well_shaped (Lab4Ratio d a))
    "docs/images/lab4_compression_ratio.png"
    "✓ График 1 сохранен: docs/images/lab4_compression_ratio.png" rc0.
Proof.
  unfold block_spec, well_shaped. cbn [series categories forallb].
  split_broadcast (Np.astype_float (convert_units d)) (map convert_height a) E1;
  enter_block GenerateCompressionCharts.chart1.
  - erewrite bind_ok by (apply bar_categorical_top; eassumption).
    ax_steps. now apply savefig_tail.
  - erewrite bind_raise by (apply bar_categorical_mismatch; eassumption).
    reflexivity.
Qed.

Lemma lab4_chart2_spec d a rc0 :
  block_spec (GenerateCompressionCharts.chart2 d a)
    (well_shaped (Lab4CompressTime d a))
    "docs/images/lab4_compress_time.png"
    "✓ График 2 сохранен: docs/images/lab4_compress_time.png" rc0.
Proof.
  unfold block_spec, well_shaped. cbn [series categories forallb].
  split_broadcast (Np.astype_float (convert_units d)) (map convert_height a) E1;
  enter_block GenerateCompressionCharts.chart2.
  - erewrite bind_ok by (apply bar_categorical_top; eassumption).
    ax_steps. now apply savefig_tail.
  - erewrite bind_raise by (apply bar_categorical_mismatch; eassumption).
    reflexivity.
Qed.

Lemma lab4_chart3_spec d a rc0 :
  block_spec (GenerateCompressionCharts.chart3 d a)
    (well_shaped (Lab4DecompressTime d a))
    "docs/images/lab4_decompress_time.png"
    "✓ График 3 сохранен: docs/images/lab4_decompress_time.png" rc0.
Proof.
  unfold block_spec, well_shaped. cbn [series categories forallb].
  split_broadcast (Np.astype_float (convert_units d)) (map convert_height a) E1;
  enter_block GenerateCompressionCharts.chart3.
  - erewrite bind_ok by (apply bar_categorical_top; eassumption).
    ax_steps. now apply savefig_tail.
  - erewrite bind_raise by (apply bar_categorical_mismatch; eassumption).
    reflexivity.
Qed.

(** The six blocks at once. *)
Lemma render_spec i rc0 :
  block_spec (render i) (well_shaped i) (output_path i) (confirmation i) rc0.
Proof.
  destruct i; cbn [render output_path confirmation].
  - apply lab3_chart1_spec.
  - apply lab3_chart2_spec.
  - apply lab3_chart3_spec.
  - apply lab4_chart1_spec.
  - apply lab4_chart2_spec.
  - apply lab4_chart3_spec.
Qed.

Lemma dirname_output_path i : dirname (output_path i) = output_dir.
Proof. destruct i; reflexivity. Qed.

(** A well-shaped render in a world whose output directory is writable
    saves its figure, prints its line and closes the figure. *)
Lemma render_ok i rc0 :
  well_shaped i = true ->
  exists F, forall w, rc w = rc0 -> writable w ->
    render i w = (Ok tt, saved (output_path i) (confirmation i) F w).
Proof.
  intros Hs. pose proof (render_spec i rc0) as H. unfold block_spec in H.
  rewrite Hs in H. destruct H as [F H]. exists F. intros w Hrc Hw.
  rewrite (H w Hrc). unfold save_outcome. rewrite dirname_output_path.
  unfold writable in Hw. now rewrite Hw.
Qed.

(** Whatever the data and the world, a render leaves every file other
    than its own as it was. *)
Lemma render_frame i w q :
  q <> output_path i -> files (snd (render i w)) !! q = files w !! q.
Proof.
  intros Hq. pose proof (render_spec i (rc w)) as H. unfold block_spec in H.
  destruct (well_shaped i); destruct H as [F H]; rewrite (H w eq_refl).
  - unfold save_outcome. destruct (dirs w !! _) as [[|]|]; cbn; trivial.
    now apply lookup_insert_ne.
  - reflexivity.
Qed.

(** ** The scripts as a whole *)

Lemma render_Lab3Sizes d a b c :
  render (Lab3Sizes d a b c) = GenerateCharts.chart1 d a b c.
Proof. reflexivity. Qed.
Lemma render_Lab3Read d a b :
  render (Lab3Read d a b) = GenerateCharts.chart2 d a b.
Proof. reflexivity. Qed.
Lemma render_Lab3Write d a b :
  render (Lab3Write d a b) = GenerateCharts.chart3 d a b.
Proof. reflexivity. Qed.
Lemma render_Lab4Ratio d a :
  render (Lab4Ratio d a) = GenerateCompressionCharts.chart1 d a.
Proof. reflexivity. Qed.
Lemma render_Lab4CompressTime d a :
  render (Lab4CompressTime d a) = GenerateCompressionCharts.chart2 d a.
Proof. reflexivity. Qed.
Lemma render_Lab4DecompressTime d a :
  render (Lab4DecompressTime d a) = GenerateCompressionCharts.chart3 d a.
Proof. reflexivity. Qed.

(** Each script body is the common shape at its own three renders. *)
Lemma lab3_main_script :
  GenerateCharts.main = script lab3_sizes lab3_read lab3_write.
Proof.
  unfold script, lab3_sizes, lab3_read, lab3_write.
  rewrite render_Lab3Sizes, render_Lab3Read, render_Lab3Write.
  reflexivity.
Qed.

Lemma lab4_main_script :
  GenerateCompressionCharts.main =
  script lab4_ratio lab4_compress_time lab4_decompress_time.
Proof.
  unfold script, lab4_ratio, lab4_compress_time, lab4_decompress_time.
  rewrite render_Lab4Ratio, render_Lab4CompressTime,
    render_Lab4DecompressTime.
  reflexivity.
Qed.

Lemma script_ok r1 r2 r3 :
  well_shaped r1 = true -> well_shaped r2 = true -> well_shaped r3 = true ->
  exists F1 F2 F3, forall w, writable w ->
    script r1 r2 r3 w =
    (Ok tt, after_script r1 r2 r3 (png300 F1) (png300 F2) (png300 F3) w).
Proof.
  intros S1 S2 S3.
  destruct (render_ok r1 script_rc S1) as [F1 H1].
  destruct (render_ok r2 script_rc S2) as [F2 H2].
  destruct (render_ok r3 script_rc S3) as [F3 H3].
  exists F1, F2, F3. intros w Hw. unfold script.
  erewrite bind_ok by reflexivity.
  erewrite bind_ok by reflexivity.
  erewrite bind_ok by (apply H1; [reflexivity | exact Hw]).
  erewrite bind_ok by (apply H2; [reflexivity | exact Hw]).
  erewrite bind_ok by (apply H3; [reflexivity | exact Hw]).
  unfold print, saved, after_script. cbn [rc figs dirs files stdout].
  now rewrite <- !app_assoc.
Qed.

Lemma fresh_process_writable : writable fresh_process.
Proof.
  unfold writable, fresh_process. cbn [dirs]. apply lookup_singleton_eq.
Qed.

Lemma script_run r1 r2 r3 :
  well_shaped r1 = true -> well_shaped r2 = true -> well_shaped r3 = true ->
  output_path r1 <> output_path r2 -> output_path r1 <> output_path r3 ->
  output_path r2 <> output_path r3 ->
  exists i1 i2 i3,
    rendered (script r1 r2 r3) (output_path r1) = Some i1 /\
    rendered (script r1 r2 r3) (output_path r2) = Some i2 /\
    rendered (script r1 r2 r3) (output_path r3) = Some i3 /\
    forall w, writable w ->
      script r1 r2 r3 w = (Ok tt, after_script r1 r2 r3 i1 i2 i3 w).
Proof.
  intros S1 S2 S3 N12 N13 N23.
  destruct (script_ok r1 r2 r3 S1 S2 S3) as (F1 & F2 & F3 & H).
  exists (png300 F1), (png300 F2), (png300 F3).
  unfold rendered. rewrite (H _ fresh_process_writable).
  unfold after_script. cbn [snd files].
  repeat split; trivial.
  - rewrite lookup_insert_ne, lookup_insert_ne by congruence.
    apply lookup_insert_eq.
  - rewrite lookup_insert_ne by congruence. apply lookup_insert_eq.
  - apply lookup_insert_eq.
Qed.

Lemma lab3_run :
  exists i1 i2 i3,
    rendered GenerateCharts.main (output_path lab3_sizes) = Some i1 /\
    rendered GenerateCharts.main (output_path lab3_read) = Some i2 /\
    rendered GenerateCharts.main (output_path lab3_write) = Some i3 /\
    forall w, writable w ->
      GenerateCharts.main w =
      (Ok tt, after_script lab3_sizes lab3_read lab3_write i1 i2 i3 w).
Proof.
  rewrite lab3_main_script. apply script_run; try reflexivity; discriminate.
Qed.

Lemma lab4_run :
  exists i1 i2 i3,
    rendered GenerateCompressionCharts.main (output_path lab4_ratio)
      = Some i1 /\
    rendered GenerateCompressionCharts.main (output_path lab4_compress_time)
      = Some i2 /\
    rendered GenerateCompressionCharts.main (output_path lab4_decompress_time)
      = Some i3 /\
    forall w, writable w ->
      GenerateCompressionCharts.main w =
      (Ok tt, after_script lab4_ratio lab4_compress_time
                lab4_decompress_time i1 i2 i3 w).
Proof.
  rewrite lab4_main_script. apply script_run; try reflexivity; discriminate.
Qed.

Lemma all_renders_cases i :
  i ∈ all_renders ->
  i = lab3_sizes \/ i = lab3_read \/ i = lab3_write \/
  i = lab4_ratio \/ i = lab4_compress_time \/ i = lab4_decompress_time.
Proof.
  unfold all_renders, lab3_renders, lab4_renders. cbn [app].
  rewrite !elem_of_cons, elem_of_nil. tauto.
Qed.

Lemma script_of_lab3_sizes : script_of lab3_sizes = GenerateCharts.main.
Proof. reflexivity. Qed.
Lemma script_of_lab3_read : script_of lab3_read = GenerateCharts.main.
Proof. reflexivity. Qed.
Lemma script_of_lab3_write : script_of lab3_write = GenerateCharts.main.
Proof. reflexivity. Qed.
Lemma script_of_lab4_ratio :
  script_of lab4_ratio = GenerateCompressionCharts.main.
Proof. reflexivity. Qed.
Lemma script_of_lab4_compress_time :
  script_of lab4_compress_time = GenerateCompressionCharts.main.
Proof. reflexivity. Qed.
Lemma script_of_lab4_decompress_time :
  script_of lab4_decompress_time = GenerateCompressionCharts.main.
Proof. reflexivity. Qed.

(** In any world with a writable output directory, the chart a script
    leaves at an invocation's path is the one it leaves there in a fresh
    process. *)
Lemma chart_of_run i w :
  i ∈ all_renders -> writable w ->
  exists img,
    rendered (script_of i) (output_path i) = Some img /\
    files (snd (script_of i w)) !! output_path i = Some img.
Proof.
  intros Hi Hw.
  destruct lab3_run as (a1 & a2 & a3 & A1 & A2 & A3 & A).
  destruct lab4_run as (b1 & b2 & b3 & B1 & B2 & B3 & B).
  apply all_renders_cases in Hi.
  destruct Hi as [-> | [-> | [-> | [-> | [-> | ->]]]]];
    [ rewrite script_of_lab3_sizes, A1, (A w Hw)
    | rewrite script_of_lab3_read, A2, (A w Hw)
    | rewrite script_of_lab3_write, A3, (A w Hw)
    | rewrite script_of_lab4_ratio, B1, (B w Hw)
    | rewrite script_of_lab4_compress_time, B2, (B w Hw)
    | rewrite script_of_lab4_decompress_time, B3, (B w Hw) ];
    eexists; (split; [reflexivity|]);
    cbn [snd files after_script];
    repeat first [ apply lookup_insert_eq
                 | rewrite lookup_insert_ne by discriminate ].
Qed.

(** A property checked on the charts of a fresh process holds of the
    charts saved in any world with a writable output directory. *)
Lemma every_chart (P : invocation -> image -> bool) (l : list invocation) :
  l ⊆ all_renders ->
  forallb (check_rendered P) l = true ->
  forall i w, i ∈ l -> writable w ->
    exists img,
      files (snd (script_of i w)) !! output_path i = Some img /\
      P i img = true.
Proof.
  intros Hl Hall i w Hi Hw.
  destruct (chart_of_run i w (Hl _ Hi) Hw) as (img & R & L).
  exists img. split; [exact L|].
  rewrite forallb_forall in Hall.
  apply list_elem_of_In in Hi. specialize (Hall i Hi).
  unfold check_rendered in Hall. now rewrite R in Hall.
Qed.

Lemma lab3_renders_sub : lab3_renders ⊆ all_renders.
Proof. unfold all_renders. intros i Hi. apply elem_of_app. now left. Qed.

Lemma lab4_renders_sub : lab4_renders ⊆ all_renders.
Proof. unfold all_renders. intros i Hi. apply elem_of_app. now right. Qed.

Lemma same_float_true u v : same_float u v = true -> u = v.
Proof.
  destruct u, v; cbn; try discriminate; trivial.
  - intros H. now apply Bool.eqb_prop in H as ->.
  - intros H. now apply Bool.eqb_prop in H as ->.
  - intros H. apply andb_prop in H as [H H3]. apply andb_prop in H as [H1 H2].
    apply Bool.eqb_prop in H1 as ->. apply Pos.eqb_eq in H2 as ->.
    now apply Z.eqb_eq in H3 as ->.
Qed.

Lemma list_eqb_true (l1 l2 : list float) :
  list_eqb same_float l1 l2 = true -> l1 = l2.
Proof.
  revert l2. induction l1 as [|a l1 IH]; intros [|b l2]; cbn;
    try discriminate; trivial.
  intros H. apply andb_prop in H as [H1 H2].
  apply same_float_true in H1 as ->. now rewrite (IH _ H2).
Qed.

Lemma after_script_files r1 r2 r3 i1 i2 i3 w q :
  q <> output_path r1 -> q <> output_path r2 -> q <> output_path r3 ->
  files (after_script r1 r2 r3 i1 i2 i3 w) !! q = files w !! q.
Proof.
  intros N1 N2 N3. cbn [files after_script].
  now rewrite !lookup_insert_ne by congruence.
Qed.

(** Saving the same three images a second time changes nothing. *)
Lemma after_script_twice r1 r2 r3 i1 i2 i3 w :
  files (after_script r1 r2 r3 i1 i2 i3 (after_script r1 r2 r3 i1 i2 i3 w))
  = files (after_script r1 r2 r3 i1 i2 i3 w).
Proof.
  cbn [files after_script]. apply map_eq. intros k.
  rewrite !lookup_insert. repeat case_decide; reflexivity.
Qed.


(** * The claims *)




(** C2. The sizes chart.  With categories ["trade_data"; "tweets"] and the
    series CSV = [265.49; 3997.58], LSM = [792.45; 6257.66],
    PostgreSQL = [1146.17; 8987.94], the chart saved at
    docs/images/lab3_sizes.png has two category groups of three bars (one
    per series, with the series' values as heights, and no third group),
    a linear y axis, and above every bar its height with one decimal:
    "265.5", "792.5", "1146.2" in the first group and "3997.6", "6257.7",
    "8987.9" in the second. *)
Theorem sizes_chart_groups_and_labels (w : world) :
  writable w ->
  exists img,
    files (snd (GenerateCharts.main w)) !! "docs/images/lab3_sizes.png"%string
      = Some img /\
    xticklabels (axes_of img) = Some ["trade_data"; "tweets"]%string /\
    map bc_label (containers (axes_of img))
      = [Some "CSV"; Some "LSM"; Some "PostgreSQL"]%string /\
    map get_height (bars_at (axes_of img) 0)
      = [lit 26549 2; lit 79245 2; lit 114617 2] /\
    map get_height (bars_at (axes_of img) 1)
      = [lit 399758 2; lit 625766 2; lit 898794 2] /\
    bars_at (axes_of img) 2 = [] /\
    yscale (axes_of img) = Linear /\
    texts (axes_of img) = map (bar_text 1) (all_patches (axes_of img)) /\
    map (fun r => format_fixed 1 (get_height r)) (bars_at (axes_of img) 0)
      = ["265.5"; "792.5"; "1146.2"]%string /\
    map (fun r => format_fixed 1 (get_height r)) (bars_at (axes_of img) 1)
      = ["3997.6"; "6257.7"; "8987.9"]%string.
Proof.
  intros Hw. destruct lab3_run as (a1 & a2 & a3 & A1 & _ & _ & A).
  exists a1. rewrite (A w Hw). split.
  { cbn [snd files after_script].
    rewrite lookup_insert_ne, lookup_insert_ne by discriminate.
    apply lookup_insert_eq. }
  vm_compute in A1. injection A1 as <-.
  vm_compute. repeat split; reflexivity.
Qed.

Lemma sizes_chart_groups_and_labels_witness :
  writable fresh_process /\
  exists img,
    files (snd (GenerateCharts.main fresh_process))
      !! "docs/images/lab3_sizes.png"%string = Some img /\
    map (fun r => format_fixed 1 (get_height r)) (bars_at (axes_of img) 0)
      = ["265.5"; "792.5"; "1146.2"]%string.
Proof.
  split; [vm_compute; reflexivity|].
  destruct (sizes_chart_groups_and_labels fresh_process)
    as (img & L & _ & _ & _ & _ & _ & _ & _ & T & _).
  - vm_compute; reflexivity.
  - exists img. split; [exact L | exact T].
Defined.

(** C3. Logarithmic charts.  In every chart the scripts save with a
    logarithmic y axis (the compression-time and decompression-time
    charts), every input value and every bar height is strictly positive;
    in the compression-time chart, drawn from [187.32; 22.67; 1.99], the
    third bar has height 1.99, which is greater than zero. *)
Theorem log_charts_plot_positive_values (w : world) :
  writable w ->
  (forall i, i ∈ all_renders ->
     exists img,
       files (snd (script_of i w)) !! output_path i = Some img /\
       (yscale (axes_of img) = Log ->
          Forall (fun v => ltb zero v = true) (concat (series i)) /\
          Forall (fun r => ltb zero (get_height r) = true)
                 (all_patches (axes_of img)))) /\
  exists img,
    files (snd (GenerateCompressionCharts.main w))
      !! "docs/images/lab4_compress_time.png"%string = Some img /\
    yscale (axes_of img) = Log /\
    map get_height (all_patches (axes_of img))
      = [lit 18732 2; lit 2267 2; lit 199 2] /\
    ltb zero (lit 199 2) = true.
Proof.
  intros Hw. split.
  - intros i Hi.
    assert (C : forallb (check_rendered log_positive) all_renders = true)
      by (vm_compute; reflexivity).
    destruct (every_chart _ _ (fun x H => H) C i w Hi Hw) as (img & L & P).
    exists img. split; [exact L|]. intros Hlog.
    unfold log_positive in P. rewrite Hlog in P.
    apply andb_prop in P. destruct P as [P1 P2].
    pose proof (proj1 (forallb_forall _ _) P1) as Q1.
    pose proof (proj1 (forallb_forall _ _) P2) as Q2.
    split; apply Forall_forall; intros x Hx; apply list_elem_of_In in Hx;
      auto.
  - destruct lab4_run as (b1 & b2 & b3 & _ & B2 & _ & B).
    exists b2. rewrite (B w Hw). split.
    { cbn [snd files after_script].
      rewrite lookup_insert_ne by discriminate. apply lookup_insert_eq. }
    vm_compute in B2. injection B2 as <-.
    vm_compute. repeat split; reflexivity.
Qed.

Lemma log_charts_plot_positive_values_witness :
  writable fresh_process /\
  exists img,
    files (snd (GenerateCompressionCharts.main fresh_process))
      !! "docs/images/lab4_compress_time.png"%string = Some img /\
    yscale (axes_of img) = Log.
Proof.
  split; [vm_compute; reflexivity|].
  destruct (log_charts_plot_positive_values fresh_process)
    as (_ & img & L & S & _).
  - vm_compute; reflexivity.
  - exists img. split; [exact L | exact S].
Defined.

(** C4.  In every chart the scripts save, each category holds one bar
    per series, and the label texts are, bar by bar, the input values
    written with the chart's number of decimals (one for the sizes chart,
    two elsewhere), followed by the unit text the chart is set up with
    (none in generate_charts.py, "×" on the ratio chart, " с" on the two
    time charts); the numeric text of 5.67 with two decimals is "5.67". *)
Theorem bars_and_labels_follow_the_input (w : world) :
  writable w ->
  (forall i, i ∈ all_renders ->
     exists img,
       files (snd (script_of i w)) !! output_path i = Some img /\
       (forall k, (k < length (categories i))%nat ->
          length (bars_at (axes_of img) k) = length (series i)) /\
       map get_height (all_patches (axes_of img)) = concat (series i) /\
       label_strings (axes_of img) = unit_labels i) /\
  format_fixed 2 (lit 567 2) = "5.67"%string.
Proof.
  intros Hw. split; [|vm_compute; reflexivity].
  intros i Hi.
  assert (C : forallb (check_rendered labels_check) all_renders = true)
    by (vm_compute; reflexivity).
  destruct (every_chart _ _ (fun x H => H) C i w Hi Hw) as (img & L & P).
  exists img. split; [exact L|]. unfold labels_check in P.
  apply andb_prop in P. destruct P as [P P3].
  apply andb_prop in P. destruct P as [P1 P2].
  apply list_eqb_true in P2. apply bool_decide_eq_true in P3.
  repeat split; trivial.
  intros k Hk. unfold bars_per_category in P1.
  apply Nat.eqb_eq, (proj1 (forallb_forall _ _) P1), in_seq. lia.
Qed.

Lemma bars_and_labels_follow_the_input_witness :
  writable fresh_process /\
  exists img,
    files (snd (script_of lab4_ratio fresh_process)) !! output_path lab4_ratio
      = Some img /\
    label_strings (axes_of img) = unit_labels lab4_ratio.
Proof.
  split; [vm_compute; reflexivity|].
  destruct (bars_and_labels_follow_the_input fresh_process) as (H & _).
  - vm_compute; reflexivity.
  - destruct (H lab4_ratio) as (img & L & _ & _ & T).
    + apply lab4_renders_sub. apply list_elem_of_here.
    + exists img. split; [exact L | exact T].
Defined.

(** C5.  In every chart the scripts save, with N series, the bars of
    each category form one group around the category tick: N bars of
    equal width, each starting where the one before it ends, the group
    between 0.7 and 0.8 of a category unit wide (0.75 for three series,
    0.7 for two, 0.8 for one) and centred on the tick.  Edges and widths
    are the exact values of the binary64 numbers stored in the
    rectangles; "equal", "no gap" and the bounds are read up to the
    rounding of that arithmetic, here 2^-53 of a category unit (0.35 is
    not a binary fraction, and the stored widths of the two bars of a
    group differ in their last bits), and hold with no tolerance at all
    in the sizes chart, whose numbers are binary fractions. *)
Theorem grouped_bars_fill_the_slot (w : world) :
  writable w ->
  (forall i, i ∈ all_renders ->
     exists img,
       files (snd (script_of i w)) !! output_path i = Some img /\
       chart_layout (1 # 2 ^ 53) i (axes_of img) = true) /\
  exists img,
    files (snd (GenerateCharts.main w)) !! "docs/images/lab3_sizes.png"%string
      = Some img /\
    chart_layout 0 lab3_sizes (axes_of img) = true.
Proof.
  intros Hw. split.
  - intros i Hi.
    assert (C : forallb (check_rendered (fun i img =>
                  chart_layout (1 # 2 ^ 53) i (axes_of img))) all_renders
                = true) by (vm_compute; reflexivity).
    exact (every_chart _ _ (fun x H => H) C i w Hi Hw).
  - destruct lab3_run as (a1 & a2 & a3 & A1 & _ & _ & A).
    exists a1. rewrite (A w Hw). split.
    { cbn [snd files after_script].
      rewrite lookup_insert_ne, lookup_insert_ne by discriminate.
      apply lookup_insert_eq. }
    vm_compute in A1. injection A1 as <-. vm_compute. reflexivity.
Qed.

Lemma grouped_bars_fill_the_slot_witness :
  writable fresh_process /\
  exists img,
    files (snd (script_of lab3_read fresh_process)) !! output_path lab3_read
      = Some img /\
    chart_layout (1 # 2 ^ 53) lab3_read (axes_of img) = true.
Proof.
  split; [vm_compute; reflexivity|].
  destruct (grouped_bars_fill_the_slot fresh_process) as (H & _).
  - vm_compute; reflexivity.
  - destruct (H lab3_read) as (img & L & C).
    + apply lab3_renders_sub.
      apply list_elem_of_further, list_elem_of_here.
    + exists img. split; [exact L | exact C].
Defined.

(** C6.  Where docs/images exists and is writable, each script run
    without arguments ends with exit status 0, has written exactly its
    three image files (one per render) on top of whatever was there, and
    has printed one confirmation line per file followed by the closing
    message; every single render that succeeds adds exactly one file and
    one line. *)
Theorem scripts_complete_and_report (w : world) :
  writable w ->
  (exists i1 i2 i3 w',
     run_script GenerateCharts.main w = (0, w') /\
     files w' = <["docs/images/lab3_write.png"%string := i3]>
                (<["docs/images/lab3_read.png"%string := i2]>
                 (<["docs/images/lab3_sizes.png"%string := i1]> (files w))) /\
     stdout w' = stdout w ++
       ["✓ График 1 сохранен: docs/images/lab3_sizes.png";
        "✓ График 2 сохранен: docs/images/lab3_read.png";
        "✓ График 3 сохранен: docs/images/lab3_write.png";
        nl +:+ "Все графики успешно созданы!"]%string) /\
  (exists i1 i2 i3 w',
     run_script GenerateCompressionCharts.main w = (0, w') /\
     files w' = <["docs/images/lab4_decompress_time.png"%string := i3]>
                (<["docs/images/lab4_compress_time.png"%string := i2]>
                 (<["docs/images/lab4_compression_ratio.png"%string := i1]>
                  (files w))) /\
     stdout w' = stdout w ++
       ["✓ График 1 сохранен: docs/images/lab4_compression_ratio.png";
        "✓ График 2 сохранен: docs/images/lab4_compress_time.png";
        "✓ График 3 сохранен: docs/images/lab4_decompress_time.png";
        nl +:+ "Все графики успешно созданы!"]%string) /\
  (forall i, well_shaped i = true ->
     exists img w',
       render i w = (Ok tt, w') /\
       files w' = <[output_path i := img]> (files w) /\
       stdout w' = stdout w ++ [confirmation i]).
Proof.
  intros Hw. repeat split.
  - destruct lab3_run as (a1 & a2 & a3 & _ & _ & _ & A).
    exists a1, a2, a3. eexists. unfold run_script. rewrite (A w Hw).
    repeat split.
  - destruct lab4_run as (b1 & b2 & b3 & _ & _ & _ & B).
    exists b1, b2, b3. eexists. unfold run_script. rewrite (B w Hw).
    repeat split.
  - intros i Hs. destruct (render_ok i (rc w) Hs) as [F H].
    exists (png300 F). eexists. rewrite (H w eq_refl Hw). repeat split.
Qed.

Lemma scripts_complete_and_report_witness :
  writable fresh_process /\
  fst (run_script GenerateCharts.main fresh_process) = 0 /\
  fst (run_script GenerateCompressionCharts.main fresh_process) = 0.
Proof.
  split; [vm_compute; reflexivity|].
  destruct (scripts_complete_and_report fresh_process)
    as ((? & ? & ? & ? & E1 & _) & (? & ? & ? & ? & E2 & _) & _).
  - vm_compute; reflexivity.
  - rewrite E1, E2. split; reflexivity.
Defined.

(** Without the output directory the first [savefig] of either script
    raises FileNotFoundError: the process ends with status 1, no file and
    no line of output. *)
Example missing_directory_exit_status :
  fst (run_script GenerateCharts.main no_output_dir) = 1 /\
  fst (GenerateCharts.main no_output_dir)
    = Raise (FileNotFoundError "docs/images/lab3_sizes.png") /\
  files (snd (run_script GenerateCharts.main no_output_dir)) = ∅ /\
  stdout (snd (run_script GenerateCharts.main no_output_dir)) = [] /\
  fst (run_script GenerateCompressionCharts.main no_output_dir) = 1.
Proof. repeat split; vm_compute; reflexivity. Qed.

(** C7.  Every render that reaches its [savefig] with a writable output
    directory leaves at its fixed relative path (a .png name under
    docs/images) a PNG image at 300 DPI cropped to the tight bounding
    box, and has closed its figure when the block ends: the registry of
    open figures is as it was before. *)
Theorem render_saves_png_300_tight_and_closes (i : invocation) (w : world) :
  well_shaped i = true -> writable w ->
  exists F w',
    render i w = (Ok tt, w') /\
    files w' !! output_path i =
      Some {| img_format := PNG; img_dpi := 300; img_bbox := BboxTight;
              img_figure := F |} /\
    dirname (output_path i) = "docs/images"%string /\
    extension (output_path i) = "png"%string /\
    figs w' = figs w.
Proof.
  intros Hs Hw. destruct (render_ok i (rc w) Hs) as [F H].
  exists F. eexists. rewrite (H w eq_refl Hw). repeat split.
  - cbn [files saved]. apply lookup_insert_eq.
  - destruct i; reflexivity.
  - destruct i; reflexivity.
Qed.

Lemma render_saves_png_300_tight_and_closes_witness :
  well_shaped lab3_sizes = true /\ writable fresh_process /\
  exists F w',
    render lab3_sizes fresh_process = (Ok tt, w') /\
    files w' !! output_path lab3_sizes = Some (png300 F) /\
    figs w' = [].
Proof.
  split; [vm_compute; reflexivity|]. split; [vm_compute; reflexivity|].
  destruct (render_saves_png_300_tight_and_closes lab3_sizes fresh_process)
    as (F & w' & E & L & _ & _ & C).
  - vm_compute; reflexivity.
  - vm_compute; reflexivity.
  - exists F, w'. repeat split; assumption.
Defined.

(** C8.  Rendering is determined by its inputs.  A render run on the same
    data in two worlds that agree on rcParams (and can both be written
    to) saves the same image, whatever else the worlds hold; and running
    a script a second time, on the world the first run left, saves the
    same three images again, so the files are unchanged. *)
Theorem rendering_twice_gives_the_same_output (i : invocation)
    (w1 w2 w : world) :
  well_shaped i = true -> rc w1 = rc w2 ->
  writable w1 -> writable w2 -> writable w ->
  (exists img,
     fst (render i w1) = Ok tt /\ fst (render i w2) = Ok tt /\
     files (snd (render i w1)) !! output_path i = Some img /\
     files (snd (render i w2)) !! output_path i = Some img) /\
  (let w' := snd (GenerateCharts.main w) in
   fst (GenerateCharts.main w') = Ok tt /\
   files (snd (GenerateCharts.main w')) = files w') /\
  (let w' := snd (GenerateCompressionCharts.main w) in
   fst (GenerateCompressionCharts.main w') = Ok tt /\
   files (snd (GenerateCompressionCharts.main w')) = files w').
Proof.
  intros Hs Hrc H1 H2 Hw. cbv zeta. repeat split.
  - destruct (render_ok i (rc w1) Hs) as [F H]. exists (png300 F).
    rewrite (H w1 eq_refl H1), (H w2 (eq_sym Hrc) H2).
    repeat split; apply lookup_insert_eq.
  - destruct lab3_run as (a1 & a2 & a3 & _ & _ & _ & A).
    rewrite (A w Hw). cbn [snd]. now erewrite A by exact Hw.
  - destruct lab3_run as (a1 & a2 & a3 & _ & _ & _ & A).
    rewrite (A w Hw). cbn [snd]. erewrite A by exact Hw. cbn [snd].
    apply after_script_twice.
  - destruct lab4_run as (b1 & b2 & b3 & _ & _ & _ & B).
    rewrite (B w Hw). cbn [snd]. now erewrite B by exact Hw.
  - destruct lab4_run as (b1 & b2 & b3 & _ & _ & _ & B).
    rewrite (B w Hw). cbn [snd]. erewrite B by exact Hw. cbn [snd].
    apply after_script_twice.
Qed.

Lemma rendering_twice_gives_the_same_output_witness :
  well_shaped lab3_sizes = true /\
  rc fresh_process = rc busy_process /\
  writable fresh_process /\ writable busy_process /\
  exists img,
    files (snd (render lab3_sizes fresh_process)) !! output_path lab3_sizes
      = Some img /\
    files (snd (render lab3_sizes busy_process)) !! output_path lab3_sizes
      = Some img.
Proof.
  split; [vm_compute; reflexivity|]. split; [vm_compute; reflexivity|].
  split; [vm_compute; reflexivity|]. split; [vm_compute; reflexivity|].
  destruct (rendering_twice_gives_the_same_output lab3_sizes fresh_process
              busy_process fresh_process)
    as ((img & _ & _ & L1 & L2) & _).
  - vm_compute; reflexivity.
  - vm_compute; reflexivity.
  - vm_compute; reflexivity.
  - vm_compute; reflexivity.
  - vm_compute; reflexivity.
  - exists img. split; assumption.
Defined.

(** C9.  Every literal series has the length of its script's category
    list (2 for datasets, 3 for algorithms); hence, in every saved chart,
    each [bar] call drew exactly one bar per category, there is one such
    call per series, pairing the bars of a call with a series leaves
    nothing unpaired, and every bar got its label. *)
Theorem literal_series_match_categories (w : world) :
  writable w ->
  (forall i, i ∈ lab3_renders ->
     categories i = ["trade_data"; "tweets"]%string /\
     Forall (fun s => length s = 2%nat) (series i)) /\
  (forall i, i ∈ lab4_renders ->
     categories i = GenerateCompressionCharts.algorithms /\
     length (categories i) = 3%nat /\
     Forall (fun s => length s = 3%nat) (series i)) /\
  (forall i, i ∈ all_renders ->
     exists img,
       files (snd (script_of i w)) !! output_path i = Some img /\
       pairing_check i img = true).
Proof.
  intros Hw. repeat split.
  - unfold lab3_renders in H. rewrite !elem_of_cons, elem_of_nil in H.
    destruct H as [-> | [-> | [-> | []]]]; reflexivity.
  - unfold lab3_renders in H. rewrite !elem_of_cons, elem_of_nil in H.
    destruct H as [-> | [-> | [-> | []]]]; repeat constructor.
  - unfold lab4_renders in H. rewrite !elem_of_cons, elem_of_nil in H.
    destruct H as [-> | [-> | [-> | []]]]; reflexivity.
  - unfold lab4_renders in H. rewrite !elem_of_cons, elem_of_nil in H.
    destruct H as [-> | [-> | [-> | []]]]; reflexivity.
  - unfold lab4_renders in H. rewrite !elem_of_cons, elem_of_nil in H.
    destruct H as [-> | [-> | [-> | []]]]; repeat constructor.
  - intros i Hi.
    assert (C : forallb (check_rendered pairing_check) all_renders = true)
      by (vm_compute; reflexivity).
    exact (every_chart _ _ (fun x H => H) C i w Hi Hw).
Qed.

Lemma literal_series_match_categories_witness :
  writable fresh_process /\
  exists img,
    files (snd (script_of lab3_sizes fresh_process)) !! output_path lab3_sizes
      = Some img /\
    pairing_check lab3_sizes img = true.
Proof.
  split; [vm_compute; reflexivity|].
  destruct (literal_series_match_categories fresh_process) as (_ & _ & H).
  - vm_compute; reflexivity.
  - apply H. apply lab3_renders_sub. apply list_elem_of_here.
Defined.

(** C10.  The six output paths are pairwise distinct; a render, whatever
    its data and whether or not it succeeds, leaves every file but its
    own untouched; so after both scripts have run, one after the other,
    each of the six paths holds its own chart. *)
Theorem renders_write_only_their_own_file (w : world) :
  writable w ->
  NoDup (map output_path all_renders) /\
  (forall i u q, q <> output_path i ->
     files (snd (render i u)) !! q = files u !! q) /\
  (forall i, i ∈ all_renders ->
     is_Some (rendered (script_of i) (output_path i)) /\
     files (snd (GenerateCompressionCharts.main
                   (snd (GenerateCharts.main w)))) !! output_path i
       = rendered (script_of i) (output_path i) /\
     files (snd (GenerateCharts.main
                   (snd (GenerateCompressionCharts.main w)))) !! output_path i
       = rendered (script_of i) (output_path i)).
Proof.
  intros Hw. split; [|split].
  - apply (bool_decide_unpack _). vm_compute. exact I.
  - intros i u q. apply render_frame.
  - intros i Hi.
    destruct lab3_run as (a1 & a2 & a3 & A1 & A2 & A3 & A).
    destruct lab4_run as (b1 & b2 & b3 & B1 & B2 & B3 & B).
    rewrite (A w Hw), (B w Hw). cbn [snd].
    erewrite A by exact Hw. erewrite B by exact Hw. cbn [snd].
    apply all_renders_cases in Hi.
    destruct Hi as [-> | [-> | [-> | [-> | [-> | ->]]]]];
      [ rewrite script_of_lab3_sizes, A1 | rewrite script_of_lab3_read, A2
      | rewrite script_of_lab3_write, A3 | rewrite script_of_lab4_ratio, B1
      | rewrite script_of_lab4_compress_time, B2
      | rewrite script_of_lab4_decompress_time, B3 ];
      (split; [eexists; reflexivity|]);
      cbn [files after_script];
      split;
      repeat first [ apply lookup_insert_eq
                   | rewrite lookup_insert_ne by discriminate ].
Qed.

Lemma renders_write_only_their_own_file_witness :
  writable fresh_process /\
  NoDup (map output_path all_renders) /\
  files (snd (GenerateCompressionCharts.main
                (snd (GenerateCharts.main fresh_process))))
    !! output_path lab3_sizes
  = rendered (script_of lab3_sizes) (output_path lab3_sizes).
Proof.
  split; [vm_compute; reflexivity|].
  destruct (renders_write_only_their_own_file fresh_process) as (N & _ & H).
  - vm_compute; reflexivity.
  - split; [exact N|].
    destruct (H lab3_sizes) as (_ & E & _); [|exact E].
    apply lab3_renders_sub. apply list_elem_of_here.
Defined.

(** * Further properties of the blocks and the scripts *)

Ltac shaped_broadcast x s E Hs :=
  let H := fresh "H" in
  pose proof (broadcast_cases x s) as H;
  rewrite ?length_map in H;
  rewrite ?length_sub_scalar, ?length_add_scalar, ?length_astype_float,
    ?length_convert_units, ?length_arange in H;
  destruct (Np.broadcast x s) eqn:E;
  [ clear H | rewrite H in Hs; cbn [andb] in Hs; try discriminate Hs;
              rewrite ?andb_false_r in Hs; discriminate Hs ].

Ltac figure_facts :=
  unfold figure_of, legend_of, drawn_texts, drawn_containers, bar_calls,
    drawn, numeric_call, tick_labels;
  cbn [call_x call_height call_width call_label call_colors omap list_omap
       decimals unit_suffix bar_label_fontsize];
  repeat match goal with
         | E : Np.broadcast _ _ = Some _ |- _ => rewrite E
         end;
  cbn [omap list_omap];
  unfold category_axis;
  try match goal with
      | |- context [update_units [] ?d] => destruct (update_units [] d)
      end;
  repeat split;
  cbn [fig_axes with_tight_layout map_axes texts add_texts new_fig
       empty_axes with_grid with_legend with_xticklabels with_xticks
       with_title with_ylabel with_xlabel with_yscale add_container
       app map concat bc_patches legend omap list_omap bc_label containers
       xticks xticklabels fmap option_fmap option_map];
  rewrite ?map_app, ?app_nil_r; reflexivity.

Lemma lab3_chart1_figure d a b c rc0 :
  well_shaped (Lab3Sizes d a b c) = true ->
  exists F,
    (forall w, rc w = rc0 ->
       GenerateCharts.chart1 d a b c w =
       save_outcome "docs/images/lab3_sizes.png"
         "✓ График 1 сохранен: docs/images/lab3_sizes.png" F w) /\
    figure_of (Lab3Sizes d a b c) rc0 F.
Proof.
  intros Hs. unfold well_shaped in Hs. cbn [series categories forallb] in Hs.
  shaped_broadcast (Np.sub_scalar (Np.arange (length d)) (lit 25 2))
      (map convert_height a) E1 Hs.
  shaped_broadcast (Np.astype_float (Np.arange (length d)))
      (map convert_height b) E2 Hs.
  shaped_broadcast (Np.add_scalar (Np.arange (length d)) (lit 25 2))
      (map convert_height c) E3 Hs.
  eexists. split.
  - intros w Hrc. unfold GenerateCharts.chart1.
    erewrite bind_ok by (apply subplots_top). rewrite Hrc.
    do 3 (erewrite bind_ok by (apply bar_top; eassumption)).
    ax_steps. now apply savefig_tail.
  - figure_facts.
Qed.

Lemma lab3_chart2_figure d a b rc0 :
  well_shaped (Lab3Read d a b) = true ->
  exists F,
    (forall w, rc w = rc0 ->
       GenerateCharts.chart2 d a b w =
       save_outcome "docs/images/lab3_read.png"
         "✓ График 2 сохранен: docs/images/lab3_read.png" F w) /\
    figure_of (Lab3Read d a b) rc0 F.
Proof.
  intros Hs. unfold well_shaped in Hs. cbn [series categories forallb] in Hs.
  shaped_broadcast
    (Np.sub_scalar (Np.arange (length d)) (div (lit 35 2) (of_Z 2)))
        (map convert_height a) E1 Hs.
  shaped_broadcast
    (Np.add_scalar (Np.arange (length d)) (div (lit 35 2) (of_Z 2)))
        (map convert_height b) E2 Hs.
  eexists. split.
  - intros w Hrc. unfold GenerateCharts.chart2.
    erewrite bind_ok by (apply subplots_top). rewrite Hrc.
    do 2 (erewrite bind_ok by (apply bar_top; eassumption)).
    ax_steps. now apply savefig_tail.
  - figure_facts.
Qed.

Lemma lab3_chart3_figure d a b rc0 :
  well_shaped (Lab3Write d a b) = true ->
  exists F,
    (forall w, rc w = rc0 ->
       GenerateCharts.chart3 d a b w =
       save_outcome "docs/images/lab3_write.png"
         "✓ График 3 сохранен: docs/images/lab3_write.png" F w) /\
    figure_of (Lab3Write d a b) rc0 F.
Proof.
  intros Hs. unfold well_shaped in Hs. cbn [series categories forallb] in Hs.
  shaped_broadcast
    (Np.sub_scalar (Np.arange (length d)) (div (lit 35 2) (of_Z 2)))
        (map convert_height a) E1 Hs.
  shaped_broadcast
    (Np.add_scalar (Np.arange (length d)) (div (lit 35 2) (of_Z 2)))
        (map convert_height b) E2 Hs.
  eexists. split.
  - intros w Hrc. unfold GenerateCharts.chart3.
    erewrite bind_ok by (apply subplots_top). rewrite Hrc.
    do 2 (erewrite bind_ok by (apply bar_top; eassumption)).
    ax_steps. now apply savefig_tail.
  - figure_facts.
Qed.

Lemma lab4_chart1_figure d a rc0 :
  well_shaped (Lab4Ratio d a) = true ->
  exists F,
    (forall w, rc w = rc0 ->
       GenerateCompressionCharts.chart1 d a w =
       save_outcome "docs/images/lab4_compression_ratio.png"
         "✓ График 1 сохранен: docs/images/lab4_compression_ratio.png" F w) /\
    figure_of (Lab4Ratio d a) rc0 F.
Proof.
  intros Hs. unfold well_shaped in Hs. cbn [series categories forallb] in Hs.
  shaped_broadcast (Np.astype_float (convert_units d))
      (map convert_height a) E1 Hs.
  eexists. split.
  - intros w Hrc. unfold GenerateCompressionCharts.chart1.
    erewrite bind_ok by (apply subplots_top). rewrite Hrc.
    erewrite bind_ok by (apply bar_categorical_top; eassumption).
    ax_steps. now apply savefig_tail.
  - figure_facts.
Qed.

Lemma lab4_chart2_figure d a rc0 :
  well_shaped (Lab4CompressTime d a) = true ->
  exists F,
    (forall w, rc w = rc0 ->
       GenerateCompressionCharts.chart2 d a w =
       save_outcome "docs/images/lab4_compress_time.png"
         "✓ График 2 сохранен: docs/images/lab4_compress_time.png" F w) /\
    figure_of (Lab4CompressTime d a) rc0 F.
Proof.
  intros Hs. unfold well_shaped in Hs. cbn [series categories forallb] in Hs.
  shaped_broadcast (Np.astype_float (convert_units d))
      (map convert_height a) E1 Hs.
  eexists. split.
  - intros w Hrc. unfold GenerateCompressionCharts.chart2.
    erewrite bind_ok by (apply subplots_top). rewrite Hrc.
    erewrite bind_ok by (apply bar_categorical_top; eassumption).
    ax_steps. now apply savefig_tail.
  - figure_facts.
Qed.

Lemma lab4_chart3_figure d a rc0 :
  well_shaped (Lab4DecompressTime d a) = true ->
  exists F,
    (forall w, rc w = rc0 ->
       GenerateCompressionCharts.chart3 d a w =
       save_outcome "docs/images/lab4_decompress_time.png"
         "✓ График 3 сохранен: docs/images/lab4_decompress_time.png" F w) /\
    figure_of (Lab4DecompressTime d a) rc0 F.
Proof.
  intros Hs. unfold well_shaped in Hs. cbn [series categories forallb] in Hs.
  shaped_broadcast (Np.astype_float (convert_units d))
      (map convert_height a) E1 Hs.
  eexists. split.
  - intros w Hrc. unfold GenerateCompressionCharts.chart3.
    erewrite bind_ok by (apply subplots_top). rewrite Hrc.
    erewrite bind_ok by (apply bar_categorical_top; eassumption).
    ax_steps. now apply savefig_tail.
  - figure_facts.
Qed.

(** The six blocks at once: a well-shaped render reaches [savefig] with
    the figure described by [figure_of]. *)
Lemma render_figure i rc0 :
  well_shaped i = true ->
  exists F,
    (forall w, rc w = rc0 ->
       render i w = save_outcome (output_path i) (confirmation i) F w) /\
    figure_of i rc0 F.
Proof.
  destruct i; cbn [render output_path confirmation].
  - apply lab3_chart1_figure.
  - apply lab3_chart2_figure.
  - apply lab3_chart3_figure.
  - apply lab4_chart1_figure.
  - apply lab4_chart2_figure.
  - apply lab4_chart3_figure.
Qed.

(** In a world that can be written to, the saved file holds that figure. *)
Lemma render_saved i w :
  well_shaped i = true -> writable w ->
  exists F,
    render i w = (Ok tt, saved (output_path i) (confirmation i) F w) /\
    figure_of i (rc w) F.
Proof.
  intros Hs Hw. destruct (render_figure i (rc w) Hs) as (F & H & Ff).
  exists F. split; [|exact Ff]. rewrite (H w eq_refl).
  unfold save_outcome. rewrite dirname_output_path.
  unfold writable in Hw. now rewrite Hw.
Qed.

(** ** Lists, zip and broadcasting *)

Lemma append_nil_r (s : string) : (s +:+ "")%string = s.
Proof.
  induction s as [|c s IH]; [reflexivity|].
  change (String c (s +:+ "") = String c s). now f_equal.
Qed.

Lemma length_zip {A B} (a : list A) (b : list B) :
  length (zip a b) = Nat.min (length a) (length b).
Proof.
  revert b. induction a as [|x a IH]; intros [|y b]; cbn; trivial.
  now rewrite IH.
Qed.

Lemma map_snd_zip {A B} (a : list A) (b : list B) :
  length a = length b -> map snd (zip a b) = b.
Proof.
  revert b. induction a as [|x a IH]; intros [|y b]; cbn; try discriminate;
    trivial.
  intros [= H]. now rewrite IH.
Qed.

Lemma map_concat {A B} (f : A -> B) (ls : list (list A)) :
  map f (concat ls) = concat (map (map f) ls).
Proof. induction ls as [|l ls IH]; cbn; [|rewrite map_app, IH]; trivial. Qed.

Lemma broadcast_same_length {A B} (a : list A) (b : list B) :
  length a = length b -> Np.broadcast a b = Some (zip a b).
Proof. intros H. unfold Np.broadcast. now rewrite bool_decide_eq_true_2. Qed.

(** The unit conversion of [Axes.bar] keeps every height but a negative
    zero, which it turns into a positive one. *)
Lemma convert_height_spec v :
  convert_height v = match v with
                     | S754_zero true => S754_zero false
                     | _ => v
                     end.
Proof.
  unfold convert_height.
  replace (of_Z 0) with (S754_zero false) by (vm_compute; reflexivity).
  destruct v as [[|]|[|]| |s m e]; reflexivity.
Qed.

Lemma bar_patches_heights wd colors xhs :
  map get_height (bar_patches wd colors xhs) = map snd xhs.
Proof.
  unfold bar_patches. change (map get_height) with (fmap (M:=list) get_height).
  rewrite fmap_imap. rewrite <- (imap_const snd). now apply imap_ext.
Qed.

Lemma length_bar_patches wd colors xhs :
  length (bar_patches wd colors xhs) = length xhs.
Proof. apply length_imap. Qed.

Lemma heights_concat (l : list bar_container) :
  map get_height (concat (map bc_patches l))
  = concat (map (fun c => map get_height (bc_patches c)) l).
Proof.
  induction l as [|c l IH]; cbn; trivial. now rewrite map_app, IH.
Qed.

(** ** Completed blocks *)

(** A block completes only on data that broadcast, in a world whose
    output directory can be written to. *)
Lemma render_completes i w :
  fst (render i w) = Ok tt -> well_shaped i = true /\ writable w.
Proof.
  pose proof (render_spec i (rc w)) as S. unfold block_spec in S.
  destruct (well_shaped i); destruct S as [F S]; rewrite (S w eq_refl).
  - unfold save_outcome, writable. rewrite dirname_output_path.
    destruct (dirs w !! output_dir) as [[|]|]; cbn [fst];
      try discriminate. tauto.
  - cbn [fst]. discriminate.
Qed.

(** A block that has completed has saved the figure [figure_of]
    describes. *)
Lemma completed_figure i w :
  fst (render i w) = Ok tt ->
  exists F,
    files (snd (render i w)) !! output_path i = Some (png300 F) /\
    figure_of i (rc w) F.
Proof.
  intros H. destruct (render_completes i w H) as [Hs Hw].
  destruct (render_saved i w Hs Hw) as (F & E & Ff).
  exists F. rewrite E. split; [apply lookup_insert_eq | exact Ff].
Qed.

(** A call whose arrays have the same length draws one bar per position,
    with the converted heights. *)
Lemma drawn_same_length call :
  length (call_x call) = length (call_height call) ->
  exists c,
    drawn call = Some c /\
    map get_height (bc_patches c) = map convert_height (call_height call) /\
    length (bc_patches c) = length (call_height call).
Proof.
  intros H. unfold drawn.
  rewrite broadcast_same_length by (now rewrite length_map).
  eexists. split; [reflexivity|]. cbn [bc_patches].
  rewrite bar_patches_heights, length_bar_patches, length_zip, length_map, H.
  rewrite map_snd_zip by (now rewrite length_map).
  split; [reflexivity | apply Nat.min_id].
Qed.

Lemma drawn_heights calls n :
  Forall (fun call => length (call_x call) = n /\
                      length (call_height call) = n) calls ->
  map (fun c => map get_height (bc_patches c)) (omap drawn calls)
  = map (fun call => map convert_height (call_height call)) calls /\
  Forall (fun c => length (bc_patches c) = n) (omap drawn calls).
Proof.
  induction 1 as [|call calls [H1 H2] _ [IH1 IH2]]; cbn [omap list_omap map].
  - split; constructor.
  - destruct (drawn_same_length call) as (c & -> & Hh & Hl); [congruence|].
    cbn [map]. rewrite Hh, IH1. split; [reflexivity|].
    constructor; [congruence | exact IH2].
Qed.

(** The x array of every [bar] call has one entry per category, and the
    heights of the calls are the series. *)
Lemma bar_calls_shape i :
  Forall (fun call => length (call_x call) = length (categories i))
         (bar_calls i) /\
  map call_height (bar_calls i) = series i.
Proof.
  destruct i; cbn [bar_calls categories series map call_height]; split;
    trivial; repeat constructor; cbn [call_x numeric_call];
    now rewrite ?length_sub_scalar, ?length_add_scalar,
      ?length_astype_float, ?length_convert_units, ?length_arange.
Qed.

Lemma drawn_containers_heights i :
  Forall (fun s => length s = length (categories i)) (series i) ->
  map (fun c => map get_height (bc_patches c)) (drawn_containers i)
  = map (map convert_height) (series i) /\
  Forall (fun c => length (bc_patches c) = length (categories i))
         (drawn_containers i).
Proof.
  intros H. destruct (bar_calls_shape i) as [Hx Hs].
  unfold drawn_containers. rewrite <- Hs at 1. rewrite map_map.
  apply drawn_heights. rewrite <- Hs in H.
  rewrite Forall_forall in Hx. rewrite Forall_forall in H.
  apply Forall_forall. intros call Hc. split; [now apply Hx|].
  apply H. apply list_elem_of_In. apply in_map. now apply list_elem_of_In.
Qed.

Lemma drawn_texts_strings i :
  Forall (fun s => length s = length (categories i)) (series i) ->
  map text_s (drawn_texts i) = drawn_labels i.
Proof.
  intros H. destruct (drawn_containers_heights i H) as [Hh Hl].
  unfold drawn_labels, label_value.
  destruct i; cbn [drawn_texts decimals unit_suffix bar_label_fontsize
                   categorical].
  1-3: rewrite map_map; cbn [text_s bar_text];
       match goal with
       | |- map _ ?ps = map (fun v => (format_fixed ?p _ +:+ _)%string) _ =>
           transitivity
             (map (fun v => (format_fixed p v +:+ "")%string)
                  (map get_height ps));
           [ rewrite map_map; apply map_ext; intros r;
             now rewrite append_nil_r
           | rewrite heights_concat, Hh, <- map_concat, map_map;
             reflexivity ]
       end.
  all: cbn [series] in H; apply Forall_inv in H;
       cbn [series drawn_containers] in Hh, Hl |- *;
       destruct (drawn_containers _) as [|c [|c' l]]; try discriminate Hh;
       apply Forall_inv in Hl;
       cbn [map concat]; rewrite !app_nil_r, map_map; cbn [text_s value_text];
       match goal with
       | |- map _ (zip ?p ?s) = map ?g ?s =>
           transitivity (map g (map snd (zip p s)));
           [ now rewrite map_map
           | now rewrite map_snd_zip by (cbn [categories] in H, Hl;
                                         congruence) ]
       end.
Qed.

(** ** What a completed block has drawn *)

(** X1.  What a completed block has drawn.  For any categories and any
    series of the same length as the categories, a block that completes
    has saved a chart in which every [bar] call holds one bar per
    category whose heights are the values of its series, in order, a
    negative zero being stored as a positive one.  The label texts are,
    bar by bar, the number the loop formats (the stored height in
    generate_charts.py, the input value in
    generate_compression_charts.py) with the block's number of decimals
    and unit. *)
Theorem render_draws_and_labels_the_input (i : invocation) (w : world) :
  Forall (fun s => length s = length (categories i)) (series i) ->
  fst (render i w) = Ok tt ->
  exists img,
    files (snd (render i w)) !! output_path i = Some img /\
    map (fun c => map get_height (bc_patches c)) (containers (axes_of img))
      = map (map convert_height) (series i) /\
    Forall (fun c => length (bc_patches c) = length (categories i))
           (containers (axes_of img)) /\
    label_strings (axes_of img) = drawn_labels i /\
    (forall v, v <> S754_zero true -> convert_height v = v) /\
    convert_height (S754_zero true) = S754_zero false.
Proof.
  intros Hl Hr.
  destruct (completed_figure i w Hr) as (F & L & _ & _ & Hc & Ht & _).
  exists (png300 F). split; [exact L|].
  unfold label_strings, axes_of. cbn [img_figure png300].
  rewrite Hc, Ht. destruct (drawn_containers_heights i Hl) as [H1 H2].
  repeat split; trivial.
  - now apply drawn_texts_strings.
  - intros v Hv. rewrite convert_height_spec.
    destruct v as [[|]|[|]| |s m e]; congruence.
Qed.

Lemma render_draws_and_labels_the_input_witness :
  Forall (fun s => length s = length (categories negative_zero_read))
         (series negative_zero_read) /\
  fst (render negative_zero_read busy_process) = Ok tt /\
  exists img,
    files (snd (render negative_zero_read busy_process))
      !! output_path negative_zero_read = Some img /\
    map (fun c => map get_height (bc_patches c)) (containers (axes_of img))
      = [[S754_zero false]; [lit 15 1]] /\
    label_strings (axes_of img) = ["0.00"; "1.50"]%string.
Proof.
  assert (H : Forall (fun s => length s
                               = length (categories negative_zero_read))
                     (series negative_zero_read))
    by (repeat constructor).
  assert (R : fst (render negative_zero_read busy_process) = Ok tt)
    by (vm_compute; reflexivity).
  split; [exact H|]. split; [exact R|].
  destruct (render_draws_and_labels_the_input negative_zero_read
              busy_process H R)
    as (img & L & V & _ & T & _).
  exists img. split; [exact L|]. split.
  - rewrite V. vm_compute. reflexivity.
  - rewrite T. vm_compute. reflexivity.
Defined.

(** X2.  Which bars get a label.  The loops of generate_charts.py visit
    the bars themselves, so every bar drawn gets one label, made from its
    own height and anchored at its top centre, also when a single value
    was repeated over several categories.  The loops of
    generate_compression_charts.py walk [zip(bars, values)]: bar number k
    is labelled with value number k and the labels stop with the shorter
    of the two. *)
Theorem labels_follow_bars_or_pairs (i : invocation) (w : world) :
  well_shaped i = true -> writable w ->
  exists img w',
    render i w = (Ok tt, w') /\
    files w' !! output_path i = Some img /\
    match i with
    | Lab3Sizes _ _ _ _ | Lab3Read _ _ _ | Lab3Write _ _ _ =>
        texts (axes_of img)
          = map (bar_text (decimals i)) (all_patches (axes_of img))
    | Lab4Ratio _ s | Lab4CompressTime _ s | Lab4DecompressTime _ s =>
        texts (axes_of img)
          = map (value_text (unit_suffix i) (bar_label_fontsize i))
                (zip (all_patches (axes_of img)) s) /\
        length (texts (axes_of img))
          = Nat.min (length (all_patches (axes_of img))) (length s)
    end.
Proof.
  intros Hs Hw.
  destruct (render_saved i w Hs Hw) as (F & E & _ & _ & Hc & Ht & _).
  exists (png300 F). eexists. split; [exact E|].
  split; [apply lookup_insert_eq|].
  unfold all_patches, axes_of. cbn [img_figure png300]. rewrite Hc, Ht.
  destruct i; cbn [drawn_texts]; trivial.
  all: unfold drawn_containers; cbn [bar_calls omap list_omap];
       destruct (drawn _) as [c|]; cbn [map concat];
       rewrite ?app_nil_r; (split; [reflexivity|]);
       now rewrite ?length_map, ?length_zip.
Qed.

Lemma labels_follow_bars_or_pairs_witness :
  well_shaped one_ratio = true /\ writable fresh_process /\
  exists img w',
    render one_ratio fresh_process = (Ok tt, w') /\
    files w' !! output_path one_ratio = Some img /\
    (length (texts (axes_of img)) <= 1)%nat.
Proof.
  assert (H : well_shaped one_ratio = true) by (vm_compute; reflexivity).
  assert (W : writable fresh_process) by (vm_compute; reflexivity).
  split; [exact H|]. split; [exact W|].
  destruct (labels_follow_bars_or_pairs one_ratio fresh_process H W)
    as (img & w' & E & L & _ & N).
  exists img, w'. split; [exact E|]. split; [exact L|].
  rewrite N. apply Nat.le_min_r.
Defined.


Lemma script_start r1 r2 r3 w :
  script r1 r2 r3 w =
  bind (render r1) (fun _ => bind (render r2) (fun _ =>
    bind (render r3) (fun _ => print final_message)))
    {| rc := script_rc; figs := figs w; dirs := dirs w; files := files w;
       stdout := stdout w |}.
Proof.
  unfold script.
  erewrite bind_ok by reflexivity.
  erewrite bind_ok by reflexivity.
  reflexivity.
Qed.

(** A script whose first block can be drawn, started where the output
    directory is missing or read-only, stops at the first [savefig]. *)
Lemma script_unwritable r1 r2 r3 :
  well_shaped r1 = true ->
  exists F, forall w, ~ writable w ->
    exists e,
      e = match dirs w !! output_dir with
          | None => FileNotFoundError (output_path r1)
          | Some _ => PermissionError (output_path r1)
          end /\
      is_OSError e = true /\
      script r1 r2 r3 w =
      (Raise e, {| rc := script_rc; figs := (next_num (figs w), F) :: figs w;
                   dirs := dirs w; files := files w; stdout := stdout w |}).
Proof.
  intros S1. pose proof (render_spec r1 script_rc) as H.
  unfold block_spec in H. rewrite S1 in H. destruct H as [F H].
  exists F. intros w Hw. rewrite script_start.
  unfold writable in Hw.
  destruct (dirs w !! output_dir) as [[|]|] eqn:E; [congruence | |].
  - exists (PermissionError (output_path r1)).
    split; [reflexivity|]. split; [reflexivity|].
    erewrite bind_raise; [reflexivity|].
    rewrite H by reflexivity. unfold save_outcome.
    rewrite dirname_output_path. cbn [dirs]. rewrite E. reflexivity.
  - exists (FileNotFoundError (output_path r1)).
    split; [reflexivity|]. split; [reflexivity|].
    erewrite bind_raise; [reflexivity|].
    rewrite H by reflexivity. unfold save_outcome.
    rewrite dirname_output_path. cbn [dirs]. rewrite E. reflexivity.
Qed.

(** X5.  A script started without a usable output directory.  When
    docs/images does not exist, or exists but cannot be written to and
    does not hold the first chart yet, either script dies at its first
    [savefig] with an OSError naming that chart (FileNotFoundError in the
    first case, PermissionError in the second): the exit status is 1, the
    font settings have already been changed, the first figure is left
    open, and nothing has been written or printed. *)
Theorem scripts_die_at_the_first_savefig
    (w : world) (body : M unit) (first : invocation) :
  (body = GenerateCharts.main /\ first = lab3_sizes) \/
  (body = GenerateCompressionCharts.main /\ first = lab4_ratio) ->
  ~ writable w ->
  files w !! output_path first = None ->
  exists e F,
    fst (body w) = Raise e /\
    e = match dirs w !! output_dir with
        | None => FileNotFoundError (output_path first)
        | Some _ => PermissionError (output_path first)
        end /\
    is_OSError e = true /\
    fst (run_script body w) = 1 /\
    rc (snd (body w)) = script_rc /\
    figs (snd (body w)) = (next_num (figs w), F) :: figs w /\
    files (snd (body w)) = files w /\
    stdout (snd (body w)) = stdout w.
Proof.
  intros B Hw _.
  assert (S : exists r2 r3, body = script first r2 r3 /\
                            well_shaped first = true).
  { destruct B as [[-> ->] | [-> ->]].
    - exists lab3_read, lab3_write. split; [apply lab3_main_script|].
      reflexivity.
    - exists lab4_compress_time, lab4_decompress_time.
      split; [apply lab4_main_script | reflexivity]. }
  destruct S as (r2 & r3 & -> & S1).
  destruct (script_unwritable first r2 r3 S1) as (F & Hbad).
  destruct (Hbad w Hw) as (e & He & Ho & E).
  exists e, F. unfold run_script. rewrite E. cbn. repeat split; trivial.
Qed.

Lemma scripts_die_at_the_first_savefig_witness :
  ~ writable no_output_dir /\
  files no_output_dir !! output_path lab3_sizes = None /\
  fst (GenerateCharts.main no_output_dir)
  = Raise (FileNotFoundError "docs/images/lab3_sizes.png") /\
  fst (run_script GenerateCharts.main no_output_dir) = 1 /\
  stdout (snd (GenerateCharts.main no_output_dir)) = [].
Proof.
  assert (H : ~ writable no_output_dir) by (vm_compute; discriminate).
  assert (N : files no_output_dir !! output_path lab3_sizes = None)
    by (vm_compute; reflexivity).
  split; [exact H|]. split; [exact N|].
  destruct (scripts_die_at_the_first_savefig no_output_dir
              GenerateCharts.main lab3_sizes
              (or_introl (conj eq_refl eq_refl)) H N)
    as (e & F & E & -> & _ & X & _ & _ & _ & O).
  split; [exact E|]. split; [exact X | exact O].
Defined.
Lemma completed_cases r1 r2 r3 :
  completed [r1; r2; r3] =
  if well_shaped r1 then
    if well_shaped r2 then
      if well_shaped r3 then [r1; r2; r3] else [r1; r2]
    else [r1]
  else [].
Proof.
  cbn. now destruct (well_shaped r1), (well_shaped r2), (well_shaped r3).
Qed.

(** X6.  A script runs its blocks in order and stops at the first one
    whose data cannot be drawn.  With a writable output directory, the
    blocks before it have each saved a chart and printed their line, the
    later ones have done neither, no other file has changed, and the
    closing message is printed only if all three completed; the exit
    status is 0 in that case and 1 otherwise. *)
Theorem script_stops_at_the_first_failing_block
    (r1 r2 r3 : invocation) (w : world) :
  writable w ->
  let rs := [r1; r2; r3] in
  let all_done := forallb well_shaped rs in
  let out := run_script (script r1 r2 r3) w in
  fst out = (if all_done then 0 else 1) /\
  stdout (snd out)
    = stdout w ++ map confirmation (completed rs)
        ++ (if all_done then [final_message] else []) /\
  (forall r, r ∈ completed rs -> is_Some (files (snd out) !! output_path r)) /\
  (forall q, q ∉ map output_path (completed rs) ->
     files (snd out) !! q = files w !! q).
Proof.
  intros Hw rs all_done out. subst rs all_done out.
  rewrite completed_cases. cbn [forallb].
  unfold run_script. rewrite script_start.
  set (w0 := {| rc := script_rc; figs := figs w; dirs := dirs w;
                files := files w; stdout := stdout w |}).
  assert (Hw0 : writable w0) by exact Hw.
  pose proof (render_spec r1 script_rc) as H1.
  pose proof (render_spec r2 script_rc) as H2.
  pose proof (render_spec r3 script_rc) as H3.
  unfold block_spec in H1, H2, H3.
  assert (Sv : forall r F v, writable v ->
            save_outcome (output_path r) (confirmation r) F v
            = (Ok tt, saved (output_path r) (confirmation r) F v)).
  { intros r F v Hv. unfold save_outcome. rewrite dirname_output_path.
    unfold writable in Hv. now rewrite Hv. }
  destruct (well_shaped r1); destruct H1 as [F1 H1].
  2:{ erewrite bind_raise by (apply H1; reflexivity).
      cbn. rewrite app_nil_r. repeat split; trivial.
      intros r Hr. now apply elem_of_nil in Hr. }
  erewrite bind_ok by (rewrite H1 by reflexivity; now apply Sv).
  set (w1 := saved (output_path r1) (confirmation r1) F1 w0).
  assert (Hw1 : writable w1) by exact Hw.
  destruct (well_shaped r2); destruct H2 as [F2 H2].
  2:{ erewrite bind_raise by (apply H2; reflexivity).
      cbn. repeat split; trivial.
      - intros r Hr. apply list_elem_of_singleton in Hr as ->.
        rewrite lookup_insert_eq. eauto.
      - intros q Hq. apply lookup_insert_ne. intros <-. apply Hq.
        apply list_elem_of_here. }
  erewrite bind_ok by (rewrite H2 by reflexivity; now apply Sv).
  set (w2 := saved (output_path r2) (confirmation r2) F2 w1).
  assert (Hw2 : writable w2) by exact Hw.
  destruct (well_shaped r3); destruct H3 as [F3 H3].
  2:{ erewrite bind_raise by (apply H3; reflexivity).
      cbn. rewrite <- !app_assoc. repeat split; trivial.
      - intros r Hr. rewrite lookup_insert. case_decide; [eauto|].
        rewrite lookup_insert. case_decide; [eauto|].
        exfalso. rewrite !elem_of_cons, elem_of_nil in Hr.
        destruct Hr as [-> | [-> | []]]; congruence.
      - intros q Hq. rewrite !elem_of_cons, elem_of_nil in Hq.
        rewrite !lookup_insert_ne; trivial; intros <-; tauto. }
  erewrite bind_ok by (rewrite H3 by reflexivity; now apply Sv).
  cbn. rewrite <- !app_assoc. repeat split; trivial.
  - intros r Hr. rewrite lookup_insert. case_decide; [eauto|].
    rewrite lookup_insert. case_decide; [eauto|].
    rewrite lookup_insert. case_decide; [eauto|].
    exfalso. rewrite !elem_of_cons, elem_of_nil in Hr.
    destruct Hr as [-> | [-> | [-> | []]]]; congruence.
  - intros q Hq. rewrite !elem_of_cons, elem_of_nil in Hq.
    rewrite !lookup_insert_ne; trivial; intros <-; tauto.
Qed.

Lemma script_stops_at_the_first_failing_block_witness :
  writable fresh_process /\
  fst (run_script (script lab3_sizes bad_read lab3_write) fresh_process) = 1 /\
  stdout (snd (run_script (script lab3_sizes bad_read lab3_write)
                 fresh_process))
  = [confirmation lab3_sizes].
Proof.
  assert (W : writable fresh_process) by (vm_compute; reflexivity).
  split; [exact W|].
  pose proof (script_stops_at_the_first_failing_block
                lab3_sizes bad_read lab3_write fresh_process W) as H.
  cbv zeta in H. destruct H as (A & B & _).
  split.
  - rewrite A. vm_compute. reflexivity.
  - rewrite B. vm_compute. reflexivity.
Defined.

(** X7.  Fonts.  A block creates its figure with the font settings in
    force at that moment and changes none of them.  Each script sets the
    family to DejaVu Sans and the size to 10 before its first block, so
    whatever the settings were when it started, all of its charts carry
    these two values and they are what it leaves in rcParams. *)
Theorem charts_carry_the_fonts_in_force (i : invocation) (w : world) :
  well_shaped i = true -> writable w ->
  (exists img w',
     render i w = (Ok tt, w') /\
     files w' !! output_path i = Some img /\
     fig_rc (img_figure img) = rc w /\
     rc w' = rc w) /\
  (forall j, j ∈ all_renders ->
     rc (snd (script_of j w)) = script_rc /\
     exists img,
       files (snd (script_of j w)) !! output_path j = Some img /\
       fig_rc (img_figure img) = script_rc).
Proof.
  intros Hs Hw. split.
  - destruct (render_saved i w Hs Hw) as (F & E & Hrc & _).
    exists (png300 F). eexists. split; [exact E|].
    split; [apply lookup_insert_eq|]. split; [exact Hrc | reflexivity].
  - intros j Hj. split.
    + destruct lab3_run as (a1 & a2 & a3 & _ & _ & _ & A).
      destruct lab4_run as (b1 & b2 & b3 & _ & _ & _ & B).
      apply all_renders_cases in Hj.
      destruct Hj as [-> | [-> | [-> | [-> | [-> | ->]]]]];
        [ rewrite script_of_lab3_sizes, (A w Hw)
        | rewrite script_of_lab3_read, (A w Hw)
        | rewrite script_of_lab3_write, (A w Hw)
        | rewrite script_of_lab4_ratio, (B w Hw)
        | rewrite script_of_lab4_compress_time, (B w Hw)
        | rewrite script_of_lab4_decompress_time, (B w Hw) ];
        reflexivity.
    + assert (C : forallb (check_rendered script_fonts) all_renders = true)
        by (vm_compute; reflexivity).
      destruct (every_chart script_fonts all_renders (fun _ H => H) C j w Hj Hw)
        as (img & L & P).
      exists img. split; [exact L|].
      unfold script_fonts in P. apply andb_prop in P as [P1 P2].
      apply bool_decide_eq_true_1 in P1. apply bool_decide_eq_true_1 in P2.
      unfold script_rc. destruct (fig_rc (img_figure img)) as [ff fs].
      cbn in P1, P2. now subst.
Qed.

Lemma charts_carry_the_fonts_in_force_witness :
  well_shaped lab3_sizes = true /\ writable busy_process /\
  (exists img w',
     render lab3_sizes busy_process = (Ok tt, w') /\
     files w' !! output_path lab3_sizes = Some img /\
     fig_rc (img_figure img)
     = {| font_family := "sans-serif"; font_size := 10 |}) /\
  (exists img,
     files (snd (script_of lab3_sizes busy_process)) !! output_path lab3_sizes
     = Some img /\
     fig_rc (img_figure img)
     = {| font_family := "DejaVu Sans"; font_size := 10 |}).
Proof.
  assert (H : well_shaped lab3_sizes = true) by (vm_compute; reflexivity).
  assert (W : writable busy_process) by (vm_compute; reflexivity).
  split; [exact H|]. split; [exact W|].
  destruct (charts_carry_the_fonts_in_force lab3_sizes busy_process H W)
    as [(img & w' & E & L & R & _) S].
  split.
  - exists img, w'. split; [exact E|]. split; [exact L|].
    rewrite R. reflexivity.
  - destruct (S lab3_sizes) as (_ & img2 & L2 & R2).
    + apply list_elem_of_here.
    + exists img2. split; [exact L2 | exact R2].
Defined.

(** X8.  The y scale is chosen by the block, never by the data.  In a
    chart that a block has saved, the axis is logarithmic for the two
    time charts of generate_compression_charts.py and linear for the
    other four, whatever the values.  The values are not checked against
    the scale: with series as long as the categories the bar heights are
    the values as converted by [Axes.bar], which leaves every negative
    number as it is, so a negative time becomes a bar of negative height
    on a logarithmic axis. *)
Theorem scale_is_fixed_by_the_block (i : invocation) (w : world) :
  fst (render i w) = Ok tt ->
  exists img,
    files (snd (render i w)) !! output_path i = Some img /\
    yscale (axes_of img) = scale_of i /\
    (Forall (fun s => length s = length (categories i)) (series i) ->
     map get_height (all_patches (axes_of img))
     = map convert_height (concat (series i))) /\
    (forall v, ltb v zero = true -> convert_height v = v).
Proof.
  intros Hr.
  destruct (completed_figure i w Hr) as (F & L & _ & _ & Hc & _ & Hy & _).
  exists (png300 F). split; [exact L|].
  unfold all_patches, axes_of. cbn [img_figure png300].
  split; [exact Hy|]. split.
  - intros Hl. rewrite Hc, heights_concat, map_concat.
    now destruct (drawn_containers_heights i Hl) as [-> _].
  - intros v Hv. rewrite convert_height_spec.
    destruct v as [[|]|[|]| |s m e]; trivial; discriminate Hv.
Qed.

Lemma scale_is_fixed_by_the_block_witness :
  fst (render nonpositive_times fresh_process) = Ok tt /\
  exists img,
    files (snd (render nonpositive_times fresh_process))
      !! output_path nonpositive_times = Some img /\
    yscale (axes_of img) = Log /\
    map get_height (all_patches (axes_of img)) = [zero; lit (-15) 1].
Proof.
  assert (R : fst (render nonpositive_times fresh_process) = Ok tt)
    by (vm_compute; reflexivity).
  split; [exact R|].
  destruct (scale_is_fixed_by_the_block nonpositive_times fresh_process R)
    as (img & L & Y & V & _).
  exists img. split; [exact L|]. split; [exact Y|].
  rewrite V by (repeat constructor). vm_compute. reflexivity.
Defined.
(** ** Categories on the x axis *)

Lemma update_units_elem seen l s :
  s ∈ update_units seen l <-> s ∈ seen \/ s ∈ l.
Proof.
  revert seen. induction l as [|x l IH]; intros seen; cbn [update_units].
  - rewrite elem_of_nil. tauto.
  - case_bool_decide as E;
      rewrite IH, ?elem_of_app, !elem_of_cons, ?elem_of_nil.
    + split; [tauto|]. intros [H | [-> | H]]; tauto.
    + tauto.
Qed.

Lemma update_units_NoDup seen l :
  NoDup seen -> NoDup (update_units seen l).
Proof.
  revert seen. induction l as [|x l IH]; intros seen H; cbn [update_units];
    trivial.
  case_bool_decide as E; apply IH; trivial.
  apply NoDup_app. split; [exact H|]. split; [|apply NoDup_singleton].
  intros y Hy Hx. apply list_elem_of_singleton in Hx as ->. tauto.
Qed.

Lemma update_units_fresh seen l :
  NoDup (seen ++ l) -> update_units seen l = seen ++ l.
Proof.
  revert seen. induction l as [|x l IH]; intros seen H; cbn [update_units].
  - now rewrite app_nil_r.
  - rewrite bool_decide_eq_false_2.
    + rewrite IH; rewrite <- app_assoc; [reflexivity | exact H].
    + apply NoDup_app in H as (_ & H & _). intros Hx. apply (H x Hx).
      apply list_elem_of_here.
Qed.

(** A label that has a position stands where the axis shows it. *)
Lemma category_position_spec units s :
  s ∈ units ->
  exists p, category_position units s = Z.of_nat p /\ units !! p = Some s.
Proof.
  intros Hs. unfold category_position.
  destruct (list_find (fun u => u = s) units) as [[p u]|] eqn:E.
  - apply list_find_Some in E as (L & -> & _). now exists p.
  - apply list_find_None in E. rewrite Forall_forall in E.
    exfalso. apply (E s); trivial.
Qed.

Lemma lookup_arange n p :
  (p < n)%nat ->
  Np.astype_float (Np.arange n) !! p = Some (of_Z (Z.of_nat p)).
Proof.
  intros H. unfold Np.astype_float, Np.arange.
  change (map of_Z ?l) with (of_Z <$> l). rewrite list_lookup_fmap.
  rewrite (proj2 (lookup_seqZ 0 (Z.of_nat n) p (Z.of_nat p)));
    [reflexivity | lia].
Qed.

Lemma lookup_zip {A B} (a : list A) (b : list B) k x y :
  a !! k = Some x -> b !! k = Some y -> zip a b !! k = Some (x, y).
Proof.
  revert b k. induction a as [|x' a IH]; intros [|y' b] [|k]; cbn;
    try discriminate.
  - now intros [= ->] [= ->].
  - apply IH.
Qed.

Lemma lookup_bar_patches wd colors xhs k xh :
  xhs !! k = Some xh ->
  bar_patches wd colors xhs !! k = Some (bar_patch wd colors k xh).
Proof.
  intros H. unfold bar_patches. rewrite list_lookup_imap, H. reflexivity.
Qed.

(** X9.  The categorical x axis of generate_compression_charts.py, in a
    chart that a block has saved with as many values as names.  The axis
    shows every distinct algorithm name once, with the ticks at
    0, 1, 2, ...; the bar drawn for a name is 0.8 wide and centred on the
    tick that shows this name, so bars of a repeated name share one
    position.  When the names are pairwise distinct the tick labels are
    the names as given and bar number k is centred on position k.  With
    no name at all the axis is not categorical: no tick and no tick label
    is set, and no bar is drawn. *)
Theorem bars_stand_at_their_own_tick (i : invocation) (w : world) :
  categorical i = true ->
  Forall (fun s => length s = length (categories i)) (series i) ->
  fst (render i w) = Ok tt ->
  exists img,
    files (snd (render i w)) !! output_path i = Some img /\
    (categories i = [] ->
       xticks (axes_of img) = None /\
       xticklabels (axes_of img) = None /\
       all_patches (axes_of img) = []) /\
    (categories i <> [] ->
     exists ticks names,
       xticks (axes_of img) = Some ticks /\
       xticklabels (axes_of img) = Some names /\
       length ticks = length names /\
       NoDup names /\
       (forall s, s ∈ names <-> s ∈ categories i) /\
       (forall k s, categories i !! k = Some s ->
          exists p r,
            all_patches (axes_of img) !! k = Some r /\
            names !! p = Some s /\
            ticks !! p = Some (of_Z (Z.of_nat p)) /\
            centred_on p r) /\
       (NoDup (categories i) ->
          names = categories i /\
          forall k r, all_patches (axes_of img) !! k = Some r ->
                      centred_on k r)).
Proof.
  intros Hc Hl Hr.
  destruct (completed_figure i w Hr)
    as (F & L & _ & _ & Hcs & _ & _ & Hn & Ht & _).
  exists (png300 F). split; [exact L|].
  unfold all_patches, axes_of. cbn [img_figure png300].
  rewrite Hcs, Hn, Ht. clear F L Hcs Hn Ht Hr.
  assert (D : exists a,
             series i = [a] /\
             tick_labels i
             = match update_units [] (categories i) with
               | [] => None
               | u :: us => Some (u :: us)
               end /\
             drawn_containers i
             = [ {| bc_label := None;
                    bc_patches :=
                      bar_patches default_bar_width
                        GenerateCompressionCharts.palette
                        (zip (Np.astype_float (convert_units (categories i)))
                             (map convert_height a)) |} ]).
  { destruct i as [d a b c | d a b | d a b | d a | d a | d a];
      try discriminate Hc; cbn [series categories] in Hl |- *;
      apply Forall_inv in Hl; exists a;
      (split; [reflexivity|]); (split; [reflexivity|]);
      unfold drawn_containers, drawn;
      cbn [bar_calls omap list_omap call_x call_height call_width
           call_label call_colors];
      rewrite broadcast_same_length
        by (now rewrite length_map, length_astype_float,
              length_convert_units);
      reflexivity. }
  destruct D as (a & Ds & Dt & Dc). rewrite Ds in Hl.
  apply Forall_inv in Hl. rewrite Dt, Dc. cbn [map concat bc_patches].
  rewrite app_nil_r. clear Ds Dt Dc Hc.
  set (d := categories i) in *. clearbody d. split.
  - intros ->. destruct a; [|discriminate Hl]. repeat split.
  - intros Hd.
    destruct (update_units [] d) as [|u us] eqn:U.
    { exfalso. destruct d as [|s d]; [congruence|].
      assert (Hs : s ∈ update_units [] (s :: d))
        by (apply update_units_elem; right; apply list_elem_of_here).
      rewrite U in Hs. now apply elem_of_nil in Hs. }
    rewrite <- U.
    exists (Np.astype_float (Np.arange (length (update_units [] d)))),
           (update_units [] d).
    cbn [fmap option_fmap option_map].
    assert (P : forall k s, d !! k = Some s ->
              exists p r,
                bar_patches default_bar_width
                  GenerateCompressionCharts.palette
                  (zip (Np.astype_float (convert_units d))
                       (map convert_height a)) !! k = Some r /\
                update_units [] d !! p = Some s /\
                category_position (update_units [] d) s = Z.of_nat p /\
                centred_on p r).
    { intros k s Lk.
      destruct (category_position_spec (update_units [] d) s)
        as (p & Hp & Lp).
      { apply update_units_elem. right.
        now apply list_elem_of_lookup_2 in Lk. }
      destruct (lookup_lt_is_Some_2 a k) as [v Lv].
      { rewrite Hl. now apply lookup_lt_Some in Lk. }
      exists p. eexists. split.
      - apply lookup_bar_patches. apply lookup_zip.
        + unfold Np.astype_float, convert_units.
          change (map ?f ?l) with (f <$> l).
          rewrite !list_lookup_fmap, Lk. cbn. reflexivity.
        + change (map ?f ?l) with (f <$> l).
          rewrite list_lookup_fmap, Lv. reflexivity.
      - split; [exact Lp|]. split; [exact Hp|].
        unfold centred_on. cbn. now rewrite Hp. }
    repeat split; trivial.
    + now rewrite length_astype_float, length_arange.
    + apply update_units_NoDup. constructor.
    + intros H. apply update_units_elem in H as [H | H]; trivial.
      now apply elem_of_nil in H.
    + intros H. apply update_units_elem. now right.
    + intros k s Lk. destruct (P k s Lk) as (p & r & Lr & Lp & _ & C).
      exists p, r. repeat split; trivial; try apply C.
      apply lookup_arange. now apply lookup_lt_Some in Lp.
    + now apply (update_units_fresh []).
    + destruct (lookup_lt_is_Some_2 d k) as [s Ls].
      { apply lookup_lt_Some in H0.
        rewrite length_bar_patches, length_zip, length_astype_float,
          length_convert_units, length_map in H0. lia. }
      destruct (P k s Ls) as (p & r' & Lr & Lp & _ & C).
      assert (p = k).
      { rewrite (update_units_fresh [] d H) in Lp. cbn [app] in Lp.
        exact (NoDup_lookup d p k s H Lp Ls). }
      subst p. rewrite Lr in H0. injection H0 as <-. apply C.
    + destruct (lookup_lt_is_Some_2 d k) as [s Ls].
      { apply lookup_lt_Some in H0.
        rewrite length_bar_patches, length_zip, length_astype_float,
          length_convert_units, length_map in H0. lia. }
      destruct (P k s Ls) as (p & r' & Lr & Lp & _ & C).
      assert (p = k).
      { rewrite (update_units_fresh [] d H) in Lp. cbn [app] in Lp.
        exact (NoDup_lookup d p k s H Lp Ls). }
      subst p. rewrite Lr in H0. injection H0 as <-. apply C.
Qed.

Lemma bars_stand_at_their_own_tick_witness :
  categorical repeated_names = true /\
  Forall (fun s => length s = length (categories repeated_names))
         (series repeated_names) /\
  fst (render repeated_names fresh_process) = Ok tt /\
  exists img names p r,
    files (snd (render repeated_names fresh_process))
      !! output_path repeated_names = Some img /\
    xticklabels (axes_of img) = Some names /\
    NoDup names /\
    all_patches (axes_of img) !! 2%nat = Some r /\
    names !! p = Some "zlib"%string /\
    centred_on p r.
Proof.
  assert (H : Forall (fun s => length s = length (categories repeated_names))
                     (series repeated_names))
    by (repeat constructor).
  assert (R : fst (render repeated_names fresh_process) = Ok tt)
    by (vm_compute; reflexivity).
  split; [reflexivity|]. split; [exact H|]. split; [exact R|].
  destruct (bars_stand_at_their_own_tick repeated_names fresh_process
              eq_refl H R)
    as (img & L & _ & N).
  destruct N as (ticks & names & _ & Tn & _ & Nd & _ & P & _);
    [discriminate|].
  destruct (P 2%nat "zlib"%string eq_refl) as (p & r & Lr & Lp & _ & C).
  exists img, names, p, r. repeat split; trivial; apply C.
Defined.

(** ** Broadcasting and colours *)

Lemma stretch_one {A} (l : list A) : stretch 1 l = l.
Proof. now destruct l as [|x [|y l]]. Qed.

Lemma stretch_map {A B} (f : A -> B) n (l : list A) :
  stretch n (map f l) = map f (stretch n l).
Proof.
  destruct l as [|x [|y l]]; cbn; trivial.
  change (map f (replicate n x)) with (f <$> replicate n x).
  now rewrite fmap_replicate.
Qed.

Lemma zip_replicate_l {A B} (x : A) (b : list B) :
  zip (replicate (length b) x) b = map (fun y => (x, y)) b.
Proof. induction b as [|y b IH]; cbn; [|rewrite IH]; trivial. Qed.

Lemma zip_replicate_r {A B} (a : list A) (y : B) :
  zip a (replicate (length a) y) = map (fun x => (x, y)) a.
Proof. induction a as [|x a IH]; cbn; [|rewrite IH]; trivial. Qed.

(** numpy's broadcasting of two one-dimensional arrays, when it
    succeeds, pairs the two arrays after stretching each to the length of
    the other. *)
Lemma broadcast_stretch {A B} (a : list A) (b : list B) l :
  Np.broadcast a b = Some l ->
  l = zip (stretch (length b) a) (stretch (length a) b).
Proof.
  unfold Np.broadcast. case_bool_decide as E.
  - intros [= <-].
    destruct a as [|x [|x' a]], b as [|y [|y' b]]; try discriminate E;
      reflexivity.
  - destruct a as [|x [|x' a]], b as [|y [|y' b]];
      cbn in E; try congruence; try discriminate; intros [= <-];
      cbn [stretch];
      first [ reflexivity
            | now rewrite (zip_replicate_l _ (_ :: _ :: _))
            | now rewrite (zip_replicate_r (_ :: _ :: _) _) ].
Qed.

Lemma bar_patches_geometry wd colors xhs :
  map (fun r => (get_x r, get_width r, get_height r))
      (bar_patches wd colors xhs)
  = map (fun xh => (sub (fst xh) (div wd (of_Z 2)), wd, snd xh)) xhs.
Proof.
  unfold bar_patches.
  change (map ?f (imap ?g ?l)) with (f <$> imap g l).
  rewrite fmap_imap.
  rewrite <- (imap_const
                (fun xh => (sub (fst xh) (div wd (of_Z 2)), wd, snd xh))).
  now apply imap_ext.
Qed.

Lemma drawn_geometry call c :
  drawn call = Some c ->
  map (fun r => (get_x r, get_width r, get_height r)) (bc_patches c)
  = bar_geometry call.
Proof.
  unfold drawn, bar_geometry.
  destruct (Np.broadcast _ _) as [l|] eqn:B; [|discriminate].
  intros [= <-]. cbn [bc_patches]. rewrite bar_patches_geometry.
  apply broadcast_stretch in B. rewrite length_map, stretch_map in B.
  subst l. generalize (stretch (length (call_height call)) (call_x call)).
  generalize (stretch (length (call_x call)) (call_height call)).
  intros hs xs. revert hs.
  induction xs as [|x xs IH]; intros [|h hs]; cbn; trivial.
  now rewrite IH.
Qed.

(** What holds of every call that draws holds of every container. *)
Lemma Forall2_drawn calls :
  Forall (fun call =>
            compatible (length (call_x call)) (length (call_height call))
            = true) calls ->
  Forall2 (fun c call => drawn call = Some c) (omap drawn calls) calls.
Proof.
  induction 1 as [|call calls H _ IH]; cbn [omap list_omap];
    [constructor|].
  pose proof (broadcast_cases (call_x call)
                (map convert_height (call_height call))) as C.
  rewrite length_map in C.
  destruct (drawn call) as [c|] eqn:D.
  - constructor; auto.
  - unfold drawn in D.
    destruct (Np.broadcast _ _); [discriminate D | congruence].
Qed.

Lemma Forall2_drawn_with (P : bar_call -> Prop) calls :
  Forall P calls ->
  Forall (fun call =>
            compatible (length (call_x call)) (length (call_height call))
            = true) calls ->
  Forall2 (fun c call => drawn call = Some c /\ P call)
          (omap drawn calls) calls.
Proof.
  intros HP HC.
  induction calls as [|call calls IH]; cbn [omap list_omap]; [constructor|].
  apply Forall_cons in HP as [Hp HP]. apply Forall_cons in HC as [Hc HC].
  pose proof (broadcast_cases (call_x call)
                (map convert_height (call_height call))) as C.
  rewrite length_map in C.
  destruct (drawn call) as [c|] eqn:D.
  - constructor; auto.
  - unfold drawn in D.
    destruct (Np.broadcast _ _); [discriminate D | congruence].
Qed.

Lemma well_shaped_calls i :
  well_shaped i = true ->
  Forall (fun call =>
            compatible (length (call_x call)) (length (call_height call))
            = true) (bar_calls i).
Proof.
  intros Hs. destruct (bar_calls_shape i) as [Hx Hh].
  unfold well_shaped in Hs. rewrite <- Hh in Hs.
  pose proof (proj1 (forallb_forall _ _) Hs) as Hs'.
  rewrite Forall_forall in Hx.
  apply Forall_forall. intros call Hc. rewrite (Hx call Hc).
  apply Hs'. apply in_map. now apply list_elem_of_In.
Qed.

(** X10.  Series of another length than the categories, in a chart that
    a block has saved.  Every [bar] call has one position per category;
    its bars are the pairs of positions and values after each of the two
    arrays has been stretched to the length of the other, a bar at
    position x reaching from x - width/2 over the width of the call.  So
    a series of exactly one value gives one bar of that height per
    category, and with a single category every value of a longer series
    gives a bar, all of them at the same place. *)
Theorem short_series_are_stretched (i : invocation) (w : world) :
  fst (render i w) = Ok tt ->
  exists img,
    files (snd (render i w)) !! output_path i = Some img /\
    map call_height (bar_calls i) = series i /\
    Forall2 (fun c call =>
               length (call_x call) = length (categories i) /\
               map (fun r => (get_x r, get_width r, get_height r))
                   (bc_patches c) = bar_geometry call /\
               (forall v, call_height call = [v] ->
                  length (bc_patches c) = length (categories i) /\
                  Forall (fun r => get_height r = convert_height v)
                         (bc_patches c)) /\
               (forall x0, call_x call = [x0] ->
                  length (bc_patches c) = length (call_height call) /\
                  Forall (fun r =>
                            get_x r = sub x0 (div (call_width call) (of_Z 2))
                            /\ get_width r = call_width call)
                         (bc_patches c)))
            (containers (axes_of img)) (bar_calls i).
Proof.
  intros Hr.
  destruct (render_completes i w Hr) as [Hs _].
  destruct (completed_figure i w Hr) as (F & L & _ & _ & Hc & _).
  exists (png300 F). split; [exact L|].
  unfold axes_of. cbn [img_figure png300]. rewrite Hc.
  destruct (bar_calls_shape i) as [Hx Hh]. split; [exact Hh|].
  unfold drawn_containers.
  eapply Forall2_impl;
    [ exact (Forall2_drawn_with _ _ Hx (well_shaped_calls i Hs)) |].
  intros c call [D Hn]. cbn beta.
  pose proof (drawn_geometry call c D) as G.
  split; [exact Hn|]. split; [exact G|].
  assert (Len : length (bc_patches c) = length (bar_geometry call)).
  { rewrite <- G. now rewrite length_map. }
  assert (In : forall r, r ∈ bc_patches c ->
            (get_x r, get_width r, get_height r) ∈ bar_geometry call).
  { intros r Hr'. rewrite <- G.
    change (map ?f ?l) with (f <$> l).
    apply (list_elem_of_fmap_2
             (fun r => (get_x r, get_width r, get_height r))), Hr'. }
  unfold bar_geometry in Len, In. rewrite length_map in Len.
  split.
  - intros v Hv. rewrite Hv in Len, In. cbn [length stretch] in Len, In.
    rewrite stretch_one in Len, In. rewrite zip_replicate_r in Len, In.
    rewrite length_map in Len. split; [congruence|].
    apply Forall_forall. intros r Hr'. specialize (In r Hr').
    rewrite map_map in In. cbn [fst snd] in In.
    change (map ?f ?l) with (f <$> l) in In.
    apply list_elem_of_fmap in In as (x & E & _). congruence.
  - intros x0 H0. rewrite H0 in Len, In. cbn [length stretch] in Len, In.
    rewrite stretch_one in Len, In. rewrite zip_replicate_l in Len, In.
    rewrite length_map in Len. split; [exact Len|].
    apply Forall_forall. intros r Hr'. specialize (In r Hr').
    rewrite map_map in In. cbn [fst snd] in In.
    change (map ?f ?l) with (f <$> l) in In.
    apply list_elem_of_fmap in In as (h & E & _).
    injection E as -> -> _. split; reflexivity.
Qed.

Lemma short_series_are_stretched_witness :
  fst (render short_series fresh_process) = Ok tt /\
  exists img c rest,
    files (snd (render short_series fresh_process))
      !! output_path short_series = Some img /\
    containers (axes_of img) = c :: rest /\
    length (bc_patches c) = 2%nat /\
    Forall (fun r => get_height r = lit 26549 2) (bc_patches c).
Proof.
  assert (R : fst (render short_series fresh_process) = Ok tt)
    by (vm_compute; reflexivity).
  split; [exact R|].
  destruct (short_series_are_stretched short_series fresh_process R)
    as (img & L & _ & F).
  apply Forall2_cons_inv_r in F as (c & rest & (_ & _ & F1 & _) & _ & C).
  exists img, c, rest. split; [exact L|]. split; [exact C|].
  exact (F1 _ eq_refl).
Defined.

Lemma bar_patches_colour wd colors xhs k r :
  bar_patches wd colors xhs !! k = Some r ->
  rect_color r = cycle_color colors k.
Proof.
  unfold bar_patches. rewrite list_lookup_imap.
  destruct (xhs !! k); cbn; [|discriminate]. now intros [= <-].
Qed.

Lemma drawn_coloured name colour x wd h c :
  series_colour name = Some colour ->
  drawn (numeric_call name colour x wd h) = Some c ->
  bc_label c = Some name /\ coloured_by_series c.
Proof.
  intros Hc D. unfold drawn, numeric_call in D.
  cbn [call_x call_height call_width call_label call_colors] in D.
  destruct (Np.broadcast x _) as [l|]; [|discriminate D].
  injection D as <-. unfold coloured_by_series. cbn [bc_label bc_patches].
  split; [reflexivity|]. apply Forall_forall. intros r Hr.
  apply list_elem_of_lookup_1 in Hr as [k Hk].
  rewrite (bar_patches_colour _ _ _ _ _ Hk), Hc.
  unfold cycle_color. cbn [length]. now rewrite Nat.mod_1_r.
Qed.

Lemma drawn_palette x wd h c :
  drawn {| call_label := None;
           call_colors := GenerateCompressionCharts.palette;
           call_x := x; call_width := wd; call_height := h |} = Some c ->
  bc_label c = None /\ coloured_by_series c.
Proof.
  intros D. unfold drawn in D.
  cbn [call_x call_height call_width call_label call_colors] in D.
  destruct (Np.broadcast x _) as [l|]; [|discriminate D].
  injection D as <-. unfold coloured_by_series. cbn [bc_label bc_patches].
  split; [reflexivity|]. intros k r Hk.
  now rewrite (bar_patches_colour _ _ _ _ _ Hk).
Qed.

(** X11.  Colours and legend.  In generate_charts.py every bar of a
    series has the colour of its storage engine, the same in all three
    charts (CSV blue, LSM red, PostgreSQL green), and the legend lists
    the series in drawing order.  In generate_compression_charts.py there
    is no legend and bar number k takes colour number k mod 3 of the
    palette, so with more than three bars the colours repeat. *)
Theorem bars_are_coloured_by_series (i : invocation) (w : world) :
  well_shaped i = true -> writable w ->
  exists img w',
    render i w = (Ok tt, w') /\
    files w' !! output_path i = Some img /\
    Forall coloured_by_series (containers (axes_of img)) /\
    legend (axes_of img)
    = (if categorical i then None
       else Some (omap bc_label (containers (axes_of img)))) /\
    map bc_label (containers (axes_of img))
    = match i with
      | Lab3Sizes _ _ _ _ =>
          [Some "CSV"; Some "LSM"; Some "PostgreSQL"]%string
      | Lab3Read _ _ _ | Lab3Write _ _ _ =>
          [Some "LSM"; Some "PostgreSQL"]%string
      | _ => [None]
      end.
Proof.
  intros Hs Hw.
  destruct (render_saved i w Hs Hw)
    as (F & E & _ & _ & Hc & _ & _ & _ & _ & Hg).
  exists (png300 F). eexists. split; [exact E|].
  split; [apply lookup_insert_eq|].
  unfold axes_of. cbn [img_figure png300]. rewrite Hg, Hc.
  pose proof (Forall2_drawn _ (well_shaped_calls i Hs)) as D.
  fold (drawn_containers i) in D.
  destruct i; cbn [bar_calls categorical legend_of] in D |- *;
    repeat match goal with
           | H : Forall2 _ _ (_ :: _) |- _ =>
               apply Forall2_cons_inv_r in H as (? & ? & ? & ? & ->)
           | H : Forall2 _ _ [] |- _ => apply Forall2_nil_inv_r in H as ->
           end;
    repeat match goal with
           | H : drawn (numeric_call _ _ _ _ _) = Some _ |- _ =>
               eapply drawn_coloured in H as [? ?]; [ | reflexivity ]
           | H : drawn _ = Some _ |- _ =>
               apply drawn_palette in H as [? ?]
           end;
    cbn [map]; repeat split; repeat constructor; trivial; congruence.
Qed.

Lemma bars_are_coloured_by_series_witness :
  well_shaped lab3_sizes = true /\ writable fresh_process /\
  exists img w',
    render lab3_sizes fresh_process = (Ok tt, w') /\
    files w' !! output_path lab3_sizes = Some img /\
    Forall coloured_by_series (containers (axes_of img)) /\
    map bc_label (containers (axes_of img))
    = [Some "CSV"; Some "LSM"; Some "PostgreSQL"]%string.
Proof.
  assert (H : well_shaped lab3_sizes = true) by (vm_compute; reflexivity).
  assert (W : writable fresh_process) by (vm_compute; reflexivity).
  split; [exact H|]. split; [exact W|].
  destruct (bars_are_coloured_by_series lab3_sizes fresh_process H W)
    as (img & w' & E & L & C & _ & B).
  exists img, w'. split; [exact E|]. split; [exact L|].
  split; [exact C | exact B].
Defined.

(** ** Number formatting *)

Lemma round_half_even_spec num den :
  0 < den ->
  2 * Z.abs (round_half_even num den * den - num) <= den /\
  (2 * Z.abs (round_half_even num den * den - num) = den ->
   Z.even (round_half_even num den) = true).
Proof.
  intros Hd. unfold round_half_even.
  pose proof (Z.div_mod num den ltac:(lia)) as E.
  pose proof (Z.mod_pos_bound num den Hd) as B.
  set (q := num / den) in *. set (r := num mod den) in *.
  destruct (Z.compare_spec (2 * r) den) as [C | C | C].
  - destruct (Z.even q) eqn:Ev.
    + split; [nia | trivial].
    + split; [nia|]. intros _. rewrite Z.even_add, Ev. reflexivity.
  - split; [nia | nia].
  - split; [nia | nia].
Qed.

(** X12.  The number on a bar label is correctly rounded.  For a bar of
    finite non-zero height, whose exact value is m * 2^e, the digits D
    printed with p decimals satisfy |D / 10^p - m * 2^e| <= 10^-p / 2,
    and in the case of a tie D is even (round half to even on the exact
    binary value, not on the decimal the data were written with). *)
Theorem bar_labels_are_correctly_rounded
    (p : nat) (bar : rectangle) (s : bool) (m : positive) (e : Z) :
  get_height bar = S754_finite s m e ->
  exists D,
    text_s (bar_text p bar)
    = (sign_prefix s +:+ fixed_unsigned p D)%string /\
    2 * Z.abs (D * 2 ^ Z.max 0 (- e)
               - Z.pos m * 10 ^ Z.of_nat p * 2 ^ Z.max 0 e)
      <= 2 ^ Z.max 0 (- e) /\
    (2 * Z.abs (D * 2 ^ Z.max 0 (- e)
                - Z.pos m * 10 ^ Z.of_nat p * 2 ^ Z.max 0 e)
       = 2 ^ Z.max 0 (- e) -> Z.even D = true).
Proof.
  intros H. exists (scaled_digits p m e).
  split; [cbn [text_s bar_text]; now rewrite H|].
  unfold scaled_digits. destruct (Z.leb_spec 0 e) as [L | L].
  - rewrite (Z.max_l 0 (- e)), (Z.max_r 0 e) by lia. cbn [Z.pow].
    split; [lia | lia].
  - rewrite (Z.max_r 0 (- e)), (Z.max_l 0 e) by lia.
    change (2 ^ 0) with 1. rewrite Z.mul_1_r.
    apply round_half_even_spec. apply Z.pow_pos_nonneg; lia.
Qed.

Lemma bar_labels_are_correctly_rounded_witness :
  get_height quarter_bar = S754_finite false 4503599627370496 (-54) /\
  exists D,
    text_s (bar_text 1 quarter_bar)
    = (sign_prefix false +:+ fixed_unsigned 1 D)%string /\
    2 * Z.abs (D * 2 ^ 54 - 4503599627370496 * 10) <= 2 ^ 54.
Proof.
  assert (H : get_height quarter_bar
              = S754_finite false 4503599627370496 (-54))
    by (vm_compute; reflexivity).
  split; [exact H|].
  destruct (bar_labels_are_correctly_rounded 1 quarter_bar false _ _ H)
    as (D & T & B & _).
  exists D. split; [exact T|].
  change (Z.max 0 (- -54)) with 54 in B.
  change (Z.max 0 (-54)) with 0 in B.
  change (2 ^ 0) with 1 in B. rewrite Z.mul_1_r in B. exact B.
Defined.
